(** * Smart scraping router, cost ledger and batch pipeline

    A shallow embedding of [scripts/smart_scraping_workflow.py] and
    [scripts/parallel_company_research.py].

    Conventions of the embedding.
    - Python [float] costs are exact rationals ([Q]); rounding is not
      modelled, so sums of costs are compared with [==].
    - Python [str] is [string]; a character is a code point below 256.
    - What lies outside the repository (the crawl4ai crawler, the Firecrawl
      client, [random.choice]) answers through a [World]; the process
      environment read by [os.getenv] is an [Environ].
    - A service answers as a function of the request; the crawler's
      [__aexit__] does not suppress an exception; writing the CSV succeeds.
    - A coroutine is a [prog]: a tree of ledger reads and writes, external
      calls and [await] points, one [Await] node for each [await] and each
      end of [async with] in the source.  [run] executes one coroutine
      alone, [gather] executes a pool of them under a schedule of the event
      loop, which changes task only at an [Await]. *)

From Stdlib Require Import ZArith QArith Lia Lqa String Ascii List.
From stdpp Require Import base option list strings gmap.

Local Open Scope Z_scope.
Local Open Scope string_scope.

(** ** Python values that cross the boundary *)

#[local] Set Warnings "-register-all".

(** A decoded JSON document, as [json.loads] returns it; [JNull] is Python's
    [None]. *)
Inductive json : Type :=
| JNull
| JBool (b : bool)
| JNum (q : Q)
| JStr (s : string)
| JArr (items : list json)
| JObj (members : list (string * json)).

(** Python truthiness of a decoded document. *)
Definition json_truthy (v : json) : bool :=
  match v with
  | JNull => false
  | JBool b => b
  | JNum q => negb (Qeq_bool q 0)
  | JStr s => negb (String.eqb s "")
  | JArr items => match items with [] => false | _ => true end
  | JObj members => match members with [] => false | _ => true end
  end.

(** The result of a call into a library: a value, or a raised exception with
    the text [str(e)] gives. *)
Inductive outcome (A : Type) : Type :=
| Returns (a : A)
| Raises (msg : string).
Arguments Returns {A} a.
Arguments Raises {A} msg.

(** A string that the code hands to [json.loads], by what [json.loads] does
    with it: the empty string, a text that decodes to [v], or a non-empty
    text on which it raises [JSONDecodeError] with message [msg]. *)
Inductive json_text : Type :=
| EmptyText
| ValidJson (v : json)
| InvalidJson (msg : string).

(** [bool(s)] of such a string. *)
Definition text_truthy (t : json_text) : bool :=
  match t with
  | EmptyText => false
  | ValidJson _ | InvalidJson _ => true
  end.

Definition json_loads (t : json_text) : outcome json :=
  match t with
  | EmptyText => Raises "Expecting value: line 1 column 1 (char 0)"
  | ValidJson v => Returns v
  | InvalidJson msg => Raises msg
  end.

(** A string that the code hands to [float()]: a numeral with value [q], or a
    text on which [float()] raises [ValueError]. *)
Inductive float_text : Type :=
| FloatText (q : Q)
| NotFloat (msg : string).

Definition py_float (t : float_text) : outcome Q :=
  match t with
  | FloatText q => Returns q
  | NotFloat msg => Raises msg
  end.

(** [bool(s)] of an optional string, as in [if api_key] or [x or default]. *)
Definition str_truthy (s : option string) : bool :=
  match s with
  | Some s => negb (String.eqb s "")
  | None => false
  end.

(** ** Configuration *)

(** The variables [os.getenv] is asked for while scraping. *)
Record Environ : Type := {
  DEEPSEEK_API_KEY : option string;
  DEEPSEEK_MODEL : option string;
  GROK_API_KEY : option string;
  GROK_MODEL : option string;
  OPENAI_API_KEY : option string;
  OPENAI_MODEL : option string;
  OPENAI_NANO_COST_PER_M : option float_text
}.

(** [os.getenv(name, default)]. *)
Definition getenv_default {A} (v : option A) (default : A) : A :=
  match v with
  | Some x => x
  | None => default
  end.

(** An entry of [self.proxy_pool]. *)
Record Proxy : Type := {
  proxy_url : string;
  proxy_username : option string;
  proxy_password : option string
}.

(** The fields of a [SmartScrapingWorkflow] that [__init__] fixes; the
    ledger [self.costs] is the state threaded through a [prog]. *)
Record SmartScrapingWorkflow : Type := {
  llm_provider : string;
  use_proxy : bool;
  proxy_pool : list Proxy
}.

(** ** The cost ledger, [self.costs] *)

Record Costs : Type := {
  crawl4ai : Q;
  firecrawl : Q;
  total_pages : Z
}.

(** The ledger [__init__] installs. *)
Definition init_costs : Costs :=
  {| crawl4ai := 0; firecrawl := 0; total_pages := 0 |}.

(** One [self.costs[key] += amount]: the stored value of one key changes. *)
Inductive increment : Type :=
| AddCrawl4ai (cost : Q)
| AddFirecrawl (cost : Q)
| AddPages (n : Z).

Definition apply_increment (i : increment) (c : Costs) : Costs :=
  match i with
  | AddCrawl4ai cost =>
      {| crawl4ai := crawl4ai c + cost; firecrawl := firecrawl c;
         total_pages := total_pages c |}
  | AddFirecrawl cost =>
      {| crawl4ai := crawl4ai c; firecrawl := firecrawl c + cost;
         total_pages := total_pages c |}
  | AddPages n =>
      {| crawl4ai := crawl4ai c; firecrawl := firecrawl c;
         total_pages := total_pages c + n |}
  end.

(** [self.costs['crawl4ai'] + self.costs['firecrawl']], the total that
    [_print_cost_summary] reports. *)
Definition total_cost (c : Costs) : Q := crawl4ai c + firecrawl c.

(** ** The external services *)

(** The keyword arguments [browser_config] that [AsyncWebCrawler] is built
    from. *)
Record ProxyConfig : Type := {
  server : string;
  username : option string;
  password : option string
}.

Record BrowserConfig : Type := {
  headless : bool;
  viewport : Z * Z;
  proxy : option ProxyConfig
}.

Record LLMExtractionStrategy : Type := {
  strategy_provider : string;
  api_token : string;
  strategy_model : string;
  instruction : string
}.

(** What [crawler.arun] returns: the attributes the workflow reads. *)
Record CrawlResult : Type := {
  cr_success : bool;
  cr_markdown : option string;
  cr_extracted_content : option json_text;
  cr_links : json;
  cr_images : option json
}.

(** The keyword arguments of [self.firecrawl.scrape_url]. *)
Record FirecrawlParams : Type := {
  formats : list string;
  onlyMainContent : bool;
  extract : option string
}.

(** What the Firecrawl client returns: [None], a dict, or a response object
    (truthy, without a [get] method). *)
Inductive FirecrawlResponse : Type :=
| FcNone
| FcDict (d : gmap string json)
| FcObject.

Definition fc_truthy (r : FirecrawlResponse) : bool :=
  match r with
  | FcNone => false
  | FcDict d => negb (bool_decide (d = ∅))
  | FcObject => true
  end.

(** The calls that leave the repository, indexed by the type of the answer. *)
Inductive extcall : Type -> Type :=
| RandomChoice (n : nat) : extcall nat
| CrawlerEnter (cfg : BrowserConfig) : extcall (outcome unit)
| CrawlerArun (cfg : BrowserConfig) (url : string)
    (extraction_strategy : option LLMExtractionStrategy) : extcall (outcome CrawlResult)
| CrawlerExit (cfg : BrowserConfig) : extcall (outcome unit)
| FirecrawlScrape (url : string) (params : FirecrawlParams) : extcall (outcome FirecrawlResponse).

(** The world outside the repository: how each service answers a request.
    [random_choice n] is the index [random.choice] draws in a pool of [n]
    entries; [crawler_enter] and [crawler_exit] are the two ends of
    [async with AsyncWebCrawler(...)]. *)
Record World : Type := {
  random_choice : nat -> nat;
  crawler_enter : BrowserConfig -> outcome unit;
  crawler_arun :
    BrowserConfig -> string -> option LLMExtractionStrategy -> outcome CrawlResult;
  crawler_exit : BrowserConfig -> outcome unit;
  firecrawl_scrape_url : string -> FirecrawlParams -> outcome FirecrawlResponse
}.

Definition answer (w : World) {R} (e : extcall R) : R :=
  match e in extcall R return R with
  | RandomChoice n => random_choice w n
  | CrawlerEnter cfg => crawler_enter w cfg
  | CrawlerArun cfg url strategy => crawler_arun w cfg url strategy
  | CrawlerExit cfg => crawler_exit w cfg
  | FirecrawlScrape url params => firecrawl_scrape_url w url params
  end.

(** ** Coroutines *)

Inductive prog (A : Type) : Type :=
| Ret (a : A)
| Await (k : prog A)
| GetCosts (k : Costs -> prog A)
| PutCosts (c : Costs) (k : prog A)
| Call (R : Type) (e : extcall R) (k : R -> prog A).
Arguments Ret {A} a.
Arguments Await {A} k.
Arguments GetCosts {A} k.
Arguments PutCosts {A} c k.
Arguments Call {A R} e k.

Fixpoint bind {A B} (p : prog A) (f : A -> prog B) : prog B :=
  match p with
  | Ret a => f a
  | Await k => Await (bind k f)
  | GetCosts k => GetCosts (fun c => bind (k c) f)
  | PutCosts c k => PutCosts c (bind k f)
  | Call e k => Call e (fun r => bind (k r) f)
  end.

Declare Scope prog_scope.
Delimit Scope prog_scope with prog.
Notation "x <- p ;; q" := (bind p (fun x => q))
  (at level 100, p at next level, right associativity) : prog_scope.
Notation "p ;; q" := (bind p (fun _ => q))
  (at level 100, right associativity) : prog_scope.
Local Open Scope prog_scope.

(** [await e] for an external awaitable [e]. *)
Definition await {R} (e : extcall R) : prog R := Await (Call e Ret).

(** A synchronous call [e]. *)
Definition call {R} (e : extcall R) : prog R := Call e Ret.

(** [self.costs[key] += amount]: read the dict, then store the sum. *)
Definition add_cost (i : increment) : prog unit :=
  GetCosts (fun c => PutCosts (apply_increment i c) (Ret tt)).

(** One coroutine run alone, to completion. *)
Fixpoint run {A} (w : World) (p : prog A) (c : Costs) : A * Costs :=
  match p with
  | Ret a => (a, c)
  | Await k => run w k c
  | GetCosts k => run w (k c) c
  | PutCosts c' k => run w k c'
  | Call e k => run w (k (answer w e)) c
  end.

(** ** [SmartScrapingWorkflow]: the two adapters and the router *)

(** What an adapter or the router returns: one constructor per dict literal
    of the source. *)
Record Crawl4aiData : Type := {
  markdown : option string;
  extracted : json;
  links : json;
  images : json
}.

Inductive FetchResult : Type :=
| Crawl4aiPage (provider model : string) (cost : Q) (data : Crawl4aiData)
    (proxy_used : option string)
| FirecrawlPage (cost : Q) (data : FirecrawlResponse)
| AdapterError (error : string)
| BothFailed (error url : string).

(** [r['success']]. *)
Definition get_success (r : FetchResult) : bool :=
  match r with
  | Crawl4aiPage _ _ _ _ _ | FirecrawlPage _ _ => true
  | AdapterError _ | BothFailed _ _ => false
  end.

(** [r.get('source')]. *)
Definition get_source (r : FetchResult) : option string :=
  match r with
  | Crawl4aiPage _ _ _ _ _ => Some "crawl4ai"
  | FirecrawlPage _ _ => Some "firecrawl"
  | AdapterError _ | BothFailed _ _ => None
  end.

(** [r.get('cost')]. *)
Definition get_cost (r : FetchResult) : option Q :=
  match r with
  | Crawl4aiPage _ _ cost _ _ | FirecrawlPage cost _ => Some cost
  | AdapterError _ | BothFailed _ _ => None
  end.

(** [r.get('error')]. *)
Definition get_error (r : FetchResult) : option string :=
  match r with
  | Crawl4aiPage _ _ _ _ _ | FirecrawlPage _ _ => None
  | AdapterError error | BothFailed error _ => Some error
  end.

(** [r and r.get('success')] for what an adapter returned, [None] included. *)
Definition succeeded (r : option FetchResult) : bool :=
  match r with
  | Some r => get_success r
  | None => false
  end.

Definition _get_proxy (self : SmartScrapingWorkflow) : prog (option Proxy) :=
  match proxy_pool self with
  | [] => Ret None
  | pool =>
      i <- call (RandomChoice (length pool));;
      Ret (pool !! (i `mod` length pool)%nat)
  end.

Definition _get_llm_config (self : SmartScrapingWorkflow) (env : Environ)
  : string * option string * string :=
  if String.eqb (llm_provider self) "deepseek" then
    ("deepseek", DEEPSEEK_API_KEY env, getenv_default (DEEPSEEK_MODEL env) "deepseek-chat")
  else if String.eqb (llm_provider self) "grok" then
    ("grok", GROK_API_KEY env, getenv_default (GROK_MODEL env) "grok-3-mini")
  else
    ("openai", OPENAI_API_KEY env, getenv_default (OPENAI_MODEL env) "gpt-5-nano").

(** The instruction used when the caller gives none. *)
Definition default_instruction : string :=
  "
                                Extract concise business intelligence:
                                - company_description (1-2 sentences)
                                - products_services (bullet list)
                                - leadership (C-suite names and titles if present)
                                - technology_mentions (keywords like Procore, P6, Autodesk, Oracle, AI, cloud)
                                - recent_news (last 12 months)
                                Return valid JSON with these keys.
                                ".

Definition browser_config_of (proxy : option Proxy) : BrowserConfig :=
  {| headless := true;
     viewport := (1920, 1080);
     proxy :=
       match proxy with
       | Some p =>
           Some {| server := proxy_url p; username := proxy_username p;
                   password := proxy_password p |}
       | None => None
       end |}.

(** Lines 174-198: the optional LLM pass.  Its [try] swallows every
    exception, so the value is [extracted_json], [None] unless the pass
    produced a document. *)
Definition llm_extraction (cfg : BrowserConfig) (url : string)
    (provider : string) (api_key : option string) (model : string)
    (extraction_instructions : option string) : prog json :=
  match api_key with
  | Some key =>
      if String.eqb provider "openai" && str_truthy api_key then
        let instruction :=
          match extraction_instructions with
          | Some i => if str_truthy extraction_instructions then i else default_instruction
          | None => default_instruction
          end in
        let llm_strategy :=
          {| strategy_provider := "openai"; api_token := key;
             strategy_model := model; instruction := instruction |} in
        llm_result <- await (CrawlerArun cfg url (Some llm_strategy));;
        match llm_result with
        | Returns llm_result =>
            match cr_extracted_content llm_result with
            | Some content =>
                if cr_success llm_result && text_truthy content then
                  match json_loads content with
                  | Returns v => Ret v
                  | Raises _ => Ret JNull
                  end
                else Ret JNull
            | None => Ret JNull
            end
        | Raises _ => Ret JNull
        end
      else Ret JNull
  | None => Ret JNull
  end.

(** Line 201: [len(result.markdown) / 4 if result.markdown else 0]. *)
Definition estimated_tokens (markdown : option string) : Q :=
  match markdown with
  | Some text =>
      if negb (String.eqb text "")
      then (inject_Z (Z.of_nat (String.length text)) / 4)%Q
      else 0%Q
  | None => 0%Q
  end.

(** Lines 202-209: the cost of one rendered page. *)
Definition page_cost (provider : string) (env : Environ) (tokens : Q) : outcome Q :=
  if String.eqb provider "deepseek" then Returns ((tokens / 1000000) * 0.14)%Q
  else if String.eqb provider "grok" then Returns ((tokens / 1000000) * 0.10)%Q
  else
    match py_float (getenv_default (OPENAI_NANO_COST_PER_M env) (FloatText 0.5%Q)) with
    | Returns openai_nano_cost_per_m =>
        Returns ((tokens / 1000000) * openai_nano_cost_per_m)%Q
    | Raises msg => Raises msg
    end.

(** Line 222: [extracted_json or (json.loads(result.extracted_content) if
    result.extracted_content else None)]. *)
Definition extracted_field (extracted_json : json) (result : CrawlResult) : outcome json :=
  if json_truthy extracted_json then Returns extracted_json
  else
    match cr_extracted_content result with
    | Some content => if text_truthy content then json_loads content else Returns JNull
    | None => Returns JNull
    end.

(** Lines 169-227: the body of the [async with] block.  [Raises] is an
    exception leaving the block; [Returns None] is the block falling
    through without a [return]. *)
Definition crawl4ai_body (env : Environ) (cfg : BrowserConfig) (url : string)
    (provider : string) (api_key : option string) (model : string)
    (proxy : option Proxy) (extraction_instructions : option string)
  : prog (outcome (option FetchResult)) :=
  result <- await (CrawlerArun cfg url None);;
  match result with
  | Raises msg => Ret (Raises msg)
  | Returns result =>
      if cr_success result then
        extracted_json <-
          llm_extraction cfg url provider api_key model extraction_instructions;;
        match page_cost provider env (estimated_tokens (cr_markdown result)) with
        | Raises msg => Ret (Raises msg)
        | Returns cost =>
            add_cost (AddCrawl4ai cost);;
            add_cost (AddPages 1);;
            match extracted_field extracted_json result with
            | Raises msg => Ret (Raises msg)
            | Returns extracted =>
                Ret (Returns (Some
                  (Crawl4aiPage provider model cost
                     {| markdown := cr_markdown result;
                        extracted := extracted;
                        links := cr_links result;
                        images := getenv_default (cr_images result) (JArr []) |}
                     (option_map proxy_url proxy))))
            end
        end
      else Ret (Returns None)
  end.

Definition _try_crawl4ai (self : SmartScrapingWorkflow) (env : Environ)
    (url : string) (extraction_instructions : option string)
  : prog (option FetchResult) :=
  let '(provider, api_key, model) := _get_llm_config self env in
  proxy <- (if use_proxy self then _get_proxy self else Ret None);;
  let browser_config := browser_config_of proxy in
  entered <- await (CrawlerEnter browser_config);;
  match entered with
  | Raises msg => Ret (Some (AdapterError msg))
  | Returns _ =>
      body <- crawl4ai_body env browser_config url provider api_key model proxy
                extraction_instructions;;
      exited <- await (CrawlerExit browser_config);;
      match exited with
      | Raises msg => Ret (Some (AdapterError msg))
      | Returns _ =>
          match body with
          | Raises msg => Ret (Some (AdapterError msg))
          | Returns r => Ret r
          end
      end
  end.

Definition _try_firecrawl (self : SmartScrapingWorkflow)
    (url : string) (extraction_instructions : option string)
  : prog (option FetchResult) :=
  let params :=
    {| formats := ["markdown"]; onlyMainContent := true;
       extract :=
         if str_truthy extraction_instructions then extraction_instructions
         else None |} in
  result <- call (FirecrawlScrape url params);;
  match result with
  | Raises msg => Ret (Some (AdapterError msg))
  | Returns result =>
      if fc_truthy result then
        let cost := 0.01%Q in
        add_cost (AddFirecrawl cost);;
        add_cost (AddPages 1);;
        Ret (Some (FirecrawlPage cost result))
      else Ret None
  end.

(** Lines 135-144: what the router returns once the Secondary adapter has
    answered. *)
Definition after_firecrawl (url : string) (firecrawl_result : option FetchResult)
  : FetchResult :=
  match firecrawl_result with
  | Some r2 =>
      if get_success r2 then r2
      else BothFailed "Both Crawl4AI and Firecrawl failed" url
  | None => BothFailed "Both Crawl4AI and Firecrawl failed" url
  end.

(** Lines 130-144: the fallback. *)
Definition firecrawl_fallback (self : SmartScrapingWorkflow) (url : string)
    (extraction_instructions : option string) : prog FetchResult :=
  firecrawl_result <- Await (_try_firecrawl self url extraction_instructions);;
  Ret (after_firecrawl url firecrawl_result).

Definition scrape_url (self : SmartScrapingWorkflow) (env : Environ)
    (url : string) (extraction_instructions : option string)
  : prog FetchResult :=
  crawl4ai_result <- Await (_try_crawl4ai self env url extraction_instructions);;
  match crawl4ai_result with
  | Some r1 =>
      if get_success r1 then Ret r1
      else firecrawl_fallback self url extraction_instructions
  | None => firecrawl_fallback self url extraction_instructions
  end.

(** ** The event loop *)

(** One turn of a coroutine on the event loop: it runs from where it was
    suspended to its next [await], which no other coroutine interrupts. *)
Fixpoint advance {A} (w : World) (p : prog A) (c : Costs) : prog A * Costs :=
  match p with
  | Ret a => (Ret a, c)
  | Await k => (k, c)
  | GetCosts k => advance w (k c) c
  | PutCosts c' k => advance w k c'
  | Call e k => advance w (k (answer w e)) c
  end.

(** The turns of a schedule: [i] in the schedule resumes task [i] of the
    pool (an index outside the pool resumes nothing). *)
Fixpoint gather_steps {A} (w : World) (sched : list nat) (pool : list (prog A))
    (c : Costs) : list (prog A) * Costs :=
  match sched with
  | [] => (pool, c)
  | i :: sched' =>
      match pool !! i with
      | Some p =>
          let '(p', c') := advance w p c in
          gather_steps w sched' (<[i := p']> pool) c'
      | None => gather_steps w sched' pool c
      end
  end.

(** The tasks of a pool run one after the other, each to completion. *)
Fixpoint run_all {A} (w : World) (pool : list (prog A)) (c : Costs)
  : list A * Costs :=
  match pool with
  | [] => ([], c)
  | p :: pool' =>
      let '(a, c1) := run w p c in
      let '(rest, c2) := run_all w pool' c1 in
      (a :: rest, c2)
  end.

(** [await asyncio.gather] of a pool under a schedule: the turns the schedule
    lists, then whatever is left of each task; the results come back in the
    order of the pool. *)
Definition gather {A} (w : World) (sched : list nat) (pool : list (prog A))
    (c : Costs) : list A * Costs :=
  let '(pool', c') := gather_steps w sched pool c in
  run_all w pool' c'.

(** ** Python strings and sequences *)

(** [str.isspace] for one character (code points below 256). *)
Definition py_isspace (a : ascii) : bool :=
  let n := nat_of_ascii a in
  ((9 <=? n) && (n <=? 13) || (28 <=? n) && (n <=? 32) || (n =? 133) || (n =? 160))%nat.

Fixpoint lstrip_where (f : ascii -> bool) (s : string) : string :=
  match s with
  | EmptyString => EmptyString
  | String a s' => if f a then lstrip_where f s' else s
  end.

Definition rstrip_where (f : ascii -> bool) (s : string) : string :=
  String.rev (lstrip_where f (String.rev s)).

(** [s.strip()]. *)
Definition py_strip (s : string) : string :=
  rstrip_where py_isspace (lstrip_where py_isspace s).

(** [s.startswith(p)]. *)
Definition startswith (s p : string) : bool := String.prefix p s.

(** [range(start, stop, step)]; a zero step raises [ValueError]. *)
Definition py_range (start stop step : Z) : outcome (list Z) :=
  if (step =? 0)%Z then Raises "range() arg 3 must not be zero"
  else
    let n :=
      if (0 <? step)%Z then
        if (start <? stop)%Z then (stop - start - 1) / step + 1 else 0
      else
        if (stop <? start)%Z then (start - stop - 1) / (- step) + 1 else 0 in
    Returns (map (fun k => start + Z.of_nat k * step) (seq 0 (Z.to_nat n))).

(** A slice bound brought into [0 .. len]: a negative bound counts from the
    end. *)
Definition slice_bound (len i : Z) : Z :=
  if (i <? 0)%Z then Z.max 0 (i + len) else Z.min i len.

(** [l[lo:hi]]. *)
Definition py_slice {A} (l : list A) (lo hi : Z) : list A :=
  let len := Z.of_nat (length l) in
  let lo' := slice_bound len lo in
  let hi' := slice_bound len hi in
  take (Z.to_nat (hi' - lo')) (drop (Z.to_nat lo') l).

(** ** [ParallelCompanyResearch] *)

(** A company as [load_companies] builds it: every key is present. *)
Record Company : Type := {
  company_name : string;
  website : string;
  founded_year : string;
  revenue : string;
  revenue_range : string;
  employees : string;
  employee_range : string;
  industry : string;
  sub_industry : string;
  ownership_type : string;
  business_model : string;
  linkedin_url : string;
  facebook_url : string;
  twitter_url : string;
  address : string;
  city : string;
  state : string;
  zip_code : string;
  country : string;
  zoominfo_id : string
}.

Definition clean_url (url : string) : string :=
  if String.eqb url "" then ""
  else
    let url := py_strip url in
    let url :=
      if negb (startswith url "http://" || startswith url "https://")
      then String.append "https://" url
      else url in
    rstrip_where (Ascii.eqb "/"%char) url.

(** A value of the [scraping_results] dict: a fetch result under
    ['main_site'] and ['linkedin'], a decoded document under
    ['extracted_data']. *)
Inductive sr_entry : Type :=
| Fetched (r : FetchResult)
| Extracted (v : json).

(** The dict [scrape_company_data] returns. *)
Record CompanyResult : Type := {
  company : Company;
  scraping_results : gmap string sr_entry;
  scraping_cost : Q
}.

Definition extraction_prompt (name : string) : string :=
  String.append "
        Extract comprehensive information about "
  (String.append name ":
        1. Company overview and mission
        2. Products and services offered
        3. Technology stack and tools used (especially Procore, ACC, Primavera P6)
        4. Recent projects and achievements
        5. Leadership team and key executives
        6. News and announcements from the last 12 months
        7. Digital transformation initiatives
        8. Pain points or challenges mentioned
        9. Contact information
        ").

(** [r.get('data', {}).get('extracted')]: a Firecrawl response object has no
    [get], nor has [None]. *)
Definition get_data_extracted (r : FetchResult) : outcome json :=
  match r with
  | Crawl4aiPage _ _ _ data _ => Returns (extracted data)
  | FirecrawlPage _ (FcDict d) => Returns (default JNull (d !! "extracted"))
  | FirecrawlPage _ FcObject => Raises "object has no attribute 'get'"
  | FirecrawlPage _ FcNone => Raises "'NoneType' object has no attribute 'get'"
  | AdapterError _ | BothFailed _ _ => Returns JNull
  end.

(** [r.get('cost', 0)]. *)
Definition get_cost_or_zero (r : FetchResult) : Q := default 0%Q (get_cost r).

(** Lines 124-134: what the [try] around the main site does to [results]
    once [scrape_url] has answered; an exception ends the block and keeps
    what was stored before it. *)
Definition store_main_site (results : CompanyResult) (main_result : FetchResult)
  : CompanyResult :=
  if get_success main_result then
    let stored :=
      {| company := company results;
         scraping_results := <["main_site" := Fetched main_result]> (scraping_results results);
         scraping_cost := scraping_cost results + get_cost_or_zero main_result |} in
    match get_data_extracted main_result with
    | Returns extracted =>
        if json_truthy extracted then
          {| company := company stored;
             scraping_results := <["extracted_data" := Extracted extracted]> (scraping_results stored);
             scraping_cost := scraping_cost stored |}
        else stored
    | Raises _ => stored
    end
  else results.

(** Lines 144-146. *)
Definition store_linkedin (results : CompanyResult) (linkedin_result : FetchResult)
  : CompanyResult :=
  if get_success linkedin_result then
    {| company := company results;
       scraping_results := <["linkedin" := Fetched linkedin_result]> (scraping_results results);
       scraping_cost := scraping_cost results + get_cost_or_zero linkedin_result |}
  else results.

Definition scrape_company_data (self : SmartScrapingWorkflow) (env : Environ)
    (company : Company) : prog CompanyResult :=
  let results :=
    {| company := company; scraping_results := ∅; scraping_cost := 0 |} in
  let website := clean_url (website company) in
  results <-
    (if negb (String.eqb website "") then
       main_result <-
         Await (scrape_url self env website
                  (Some (extraction_prompt (company_name company))));;
       Ret (store_main_site results main_result)
     else Ret results);;
  let linkedin_url := linkedin_url company in
  if negb (String.eqb linkedin_url "") && startswith linkedin_url "http" then
    linkedin_result <-
      Await (scrape_url self env linkedin_url
               (Some "Extract company size, recent posts, and employee count"));;
    Ret (store_linkedin results linkedin_result)
  else Ret results.

(** [results] collects the gathered dicts in order. *)
Definition process_company_batch (w : World) (self : SmartScrapingWorkflow)
    (env : Environ) (sched : list nat) (companies : list Company) (c : Costs)
  : list CompanyResult * Costs :=
  gather w sched (map (scrape_company_data self env) companies) c.

Definition wait_for_deep_research (results : list CompanyResult) : list CompanyResult :=
  results.

(** A row of the master CSV, before its cells are rendered as text. *)
Record Row : Type := {
  row_company : Company;
  row_extracted : json;
  row_scraping_cost : Q
}.

Definition row_of (result : CompanyResult) : Row :=
  {| row_company := company result;
     row_extracted :=
       match scraping_results result !! "extracted_data" with
       | Some (Extracted v) => v
       | _ => JObj []
       end;
     row_scraping_cost := scraping_cost result |}.

(** The files written so far, oldest first: each is the list of its rows.
    [generate_master_csv] writes only when there is a row. *)
Definition generate_master_csv (all_results : list CompanyResult)
    (csv_files : list (list Row)) : list (list Row) :=
  let rows := map row_of all_results in
  match rows with
  | [] => csv_files
  | _ => (csv_files ++ [rows])%list
  end.

(** What the pipeline changes: the scraper's ledger and the CSV directory. *)
Record Pipeline : Type := {
  costs : Costs;
  csv_files : list (list Row)
}.

(** The body of the [for] loop of [run_research_pipeline], over the values
    [i] of the range; [sched i] is the schedule of the batch starting at
    [i]. *)
Fixpoint batch_loop (w : World) (self : SmartScrapingWorkflow) (env : Environ)
    (sched : Z -> list nat) (companies : list Company) (batch_size : Z)
    (starts : list Z) (all_results : list CompanyResult) (st : Pipeline)
  : list CompanyResult * Pipeline :=
  match starts with
  | [] => (all_results, st)
  | i :: starts' =>
      let batch := py_slice companies i (i + batch_size) in
      let '(batch_results, c) :=
        process_company_batch w self env (sched i) batch (costs st) in
      let completed_results := wait_for_deep_research batch_results in
      let all_results := (all_results ++ completed_results)%list in
      let st' :=
        {| costs := c;
           csv_files := generate_master_csv all_results (csv_files st) |} in
      batch_loop w self env sched companies batch_size starts' all_results st'
  end.

(** Lines 320-322: [if limit: companies = companies[:limit]]. *)
Definition truncate_companies (limit : option Z) (companies : list Company)
  : list Company :=
  match limit with
  | Some n => if negb (n =? 0)%Z then py_slice companies 0 n else companies
  | None => companies
  end.

(** [companies] is what [load_companies] read from the CSV. *)
Definition run_research_pipeline (w : World) (self : SmartScrapingWorkflow)
    (env : Environ) (sched : Z -> list nat) (companies : list Company)
    (limit : option Z) (batch_size : Z) (st : Pipeline)
  : outcome (list CompanyResult * Pipeline) :=
  let companies := truncate_companies limit companies in
  match py_range 0 (Z.of_nat (length companies)) batch_size with
  | Raises msg => Raises msg
  | Returns starts =>
      Returns (batch_loop w self env sched companies batch_size starts [] st)
  end.

(** ** Notions the statements use *)

(** The proxy a fetch draws, and the browser configuration built from it. *)
Definition selected_proxy (w : World) (self : SmartScrapingWorkflow) : option Proxy :=
  if use_proxy self then
    match proxy_pool self with
    | [] => None
    | pool => pool !! (random_choice w (length pool) `mod` length pool)%nat
    end
  else None.

Definition selected_browser_config (w : World) (self : SmartScrapingWorkflow)
  : BrowserConfig :=
  browser_config_of (selected_proxy w self).

(** The value [extracted_json] has after the optional LLM pass of a fetch. *)
Definition llm_extracted (w : World) (self : SmartScrapingWorkflow) (env : Environ)
    (url : string) (extraction_instructions : option string) : json :=
  let '(provider, api_key, model) := _get_llm_config self env in
  fst (run w (llm_extraction (selected_browser_config w self) url provider api_key
                model extraction_instructions) init_costs).

(** Ledgers compared key by key, costs as rationals. *)
Definition costs_equiv (c d : Costs) : Prop :=
  (crawl4ai c == crawl4ai d)%Q /\ (firecrawl c == firecrawl d)%Q /\
  total_pages c = total_pages d.

(** A ledger moved by the amounts of another. *)
Definition costs_plus (c d : Costs) : Costs :=
  {| crawl4ai := crawl4ai c + crawl4ai d;
     firecrawl := firecrawl c + firecrawl d;
     total_pages := total_pages c + total_pages d |}.

(** What a coroutine returns, and what it adds to the ledger, when it runs
    alone from the empty ledger. *)
Definition result_of {A} (w : World) (p : prog A) : A := fst (run w p init_costs).
Definition delta {A} (w : World) (p : prog A) : Costs := snd (run w p init_costs).

Definition pool_delta {A} (w : World) (pool : list (prog A)) : Costs :=
  foldr (fun p d => costs_plus (delta w p) d) init_costs pool.

(** A coroutine that touches the ledger only through [+=]: every read is
    followed, before any [await], by the store of the value read plus an
    amount, and nothing else depends on what was read. *)
Inductive additive {A} : prog A -> Prop :=
| additive_ret a : additive (Ret a)
| additive_await k : additive k -> additive (Await k)
| additive_call R (e : extcall R) k :
    (forall r, additive (k r)) -> additive (Call e k)
| additive_add i k k' :
    (forall c, k c = PutCosts (apply_increment i c) k') ->
    additive k' -> additive (GetCosts k).

(** One attempt of a backend adapter. *)
Inductive fetch_call : Type :=
| Primary (url : string) (extraction_instructions : option string)
| Secondary (url : string) (extraction_instructions : option string).

Definition fetch (self : SmartScrapingWorkflow) (env : Environ) (f : fetch_call)
  : prog (option FetchResult) :=
  match f with
  | Primary url i => _try_crawl4ai self env url i
  | Secondary url i => _try_firecrawl self url i
  end.

(** A run: adapter attempts one after the other, with what each returned. *)
Fixpoint observe (w : World) (self : SmartScrapingWorkflow) (env : Environ)
    (calls : list fetch_call) (c : Costs) : list (option FetchResult) * Costs :=
  match calls with
  | [] => ([], c)
  | f :: calls' =>
      let '(r, c1) := run w (fetch self env f) c in
      let '(rs, c2) := observe w self env calls' c1 in
      (r :: rs, c2)
  end.




(** The price per million tokens the configuration names: 0.14 for
    deepseek, 0.10 for grok, otherwise [OPENAI_NANO_COST_PER_M], 0.5 when
    unset; [None] when that variable is not a number. *)
Definition configured_price_per_million (self : SmartScrapingWorkflow)
    (env : Environ) : option Q :=
  if String.eqb (llm_provider self) "deepseek" then Some 0.14%Q
  else if String.eqb (llm_provider self) "grok" then Some 0.10%Q
  else
    match OPENAI_NANO_COST_PER_M env with
    | None => Some 0.5%Q
    | Some (FloatText q) => Some q
    | Some (NotFloat _) => None
    end.

(** The character count of the rendered markdown, 0 when there is none. *)
Definition markdown_chars (page : CrawlResult) : Z :=
  match cr_markdown page with
  | Some text => Z.of_nat (String.length text)
  | None => 0
  end.

(** The estimate the specification gives: a token is four characters. *)
Definition estimated_token_count (page : CrawlResult) : Q :=
  (inject_Z (markdown_chars page) / 4)%Q.

(** [l] cut into consecutive pieces of [n] elements, the last one shorter
    when [n] does not divide the length. *)
Fixpoint chunks_fuel {A} (fuel n : nat) (l : list A) : list (list A) :=
  match fuel with
  | O => []
  | S fuel' =>
      match l with
      | [] => []
      | _ => take n l :: chunks_fuel fuel' n (drop n l)
      end
  end.

Definition chunks {A} (n : nat) (l : list A) : list (list A) :=
  chunks_fuel (length l) n l.

(** The keyword arguments [_try_firecrawl] sends. *)
Definition firecrawl_params (extraction_instructions : option string) : FirecrawlParams :=
  {| formats := ["markdown"%string]; onlyMainContent := true;
     extract :=
       if str_truthy extraction_instructions then extraction_instructions
       else None |}.

(** The instruction of the LinkedIn fetch. *)
Definition linkedin_instructions : string :=
  "Extract company size, recent posts, and employee count".

(** Some character of [s] is not one that [f] strips. *)
Fixpoint has_kept (f : ascii -> bool) (s : string) : bool :=
  match s with
  | EmptyString => false
  | String a s' => negb (f a) || has_kept f s'
  end.

(** What [scrape_company_data] returns for a company when it runs alone. *)
Definition company_result (w : World) (self : SmartScrapingWorkflow) (env : Environ)
    (company0 : Company) : CompanyResult :=
  result_of w (scrape_company_data self env company0).

(** The files a run of batches writes: after the batch of index [k], the
    rows of the results of the first [k + 1] batches. *)
Definition checkpoints (w : World) (self : SmartScrapingWorkflow) (env : Environ)
    (batches : list (list Company)) : list (list Row) :=
  map (fun k => map row_of (map (company_result w self env) (concat (take (S k) batches))))
      (seq 0 (length batches)).

(** The number of values of [range(0, n, step)] for a positive step. *)
Definition range_len (n step : Z) : nat :=
  Z.to_nat (if (0 <? n)%Z then (n - 1) / step + 1 else 0)%Z.

(** The adapter attempts the router makes for one URL. *)
Definition router_calls (w : World) (self : SmartScrapingWorkflow) (env : Environ)
    (url : string) (extraction_instructions : option string) (c : Costs)
  : list fetch_call :=
  if succeeded (run w (_try_crawl4ai self env url extraction_instructions) c).1
  then [Primary url extraction_instructions]
  else [Primary url extraction_instructions; Secondary url extraction_instructions].

(** For contrast with [add_cost]: an update that awaits between the read
    of the ledger and the store, as [costs[k] = costs[k] + await f()] would. *)
Definition add_cost_across_await (i : increment) : prog unit :=
  GetCosts (fun c => Await (PutCosts (apply_increment i c) (Ret tt))).

(** ** Example inputs *)

Definition example_env : Environ :=
  {| DEEPSEEK_API_KEY := None; DEEPSEEK_MODEL := None;
     GROK_API_KEY := None; GROK_MODEL := None;
     OPENAI_API_KEY := None; OPENAI_MODEL := None;
     OPENAI_NANO_COST_PER_M := None |}.

(** The default configuration: deepseek, no proxy. *)
Definition example_self : SmartScrapingWorkflow :=
  {| llm_provider := "deepseek"; use_proxy := false; proxy_pool := [] |}.



(** A page that rendered: sixteen characters of markdown and the given
    [extracted_content]. *)
Definition rendered_page (content : option json_text) : CrawlResult :=
  {| cr_success := true;
     cr_markdown := Some "# Example Domain";
     cr_extracted_content := content;
     cr_links := JObj [];
     cr_images := None |}.

(** A world whose crawler opens and closes without error and answers
    [arun] by [page], and whose Firecrawl client answers by [fc]. *)
Definition simple_world (page : string -> outcome CrawlResult)
    (fc : string -> outcome FirecrawlResponse) : World :=
  {| random_choice := fun _ => 0%nat;
     crawler_enter := fun _ => Returns tt;
     crawler_arun := fun _ url _ => page url;
     crawler_exit := fun _ => Returns tt;
     firecrawl_scrape_url := fun url _ => fc url |}.

(** Every page renders, with no [extracted_content]. *)
Definition plain_page : string -> outcome CrawlResult :=
  fun _ => Returns (rendered_page None).

(** Every page renders, with an [extracted_content] that is not JSON. *)
Definition unparsable_page : string -> outcome CrawlResult :=
  fun _ => Returns (rendered_page
                      (Some (InvalidJson "Expecting value: line 1 column 1 (char 0)"))).

(** The crawler reaches the page but reports [success == False]. *)
Definition unrendered_page : string -> outcome CrawlResult :=
  fun _ => Returns {| cr_success := false; cr_markdown := None;
                      cr_extracted_content := None; cr_links := JNull;
                      cr_images := None |}.

(** A company with the given name, website and LinkedIn URL, the other
    columns empty. *)
Definition example_company (name site linkedin : string) : Company :=
  {| company_name := name; website := site; founded_year := ""; revenue := "";
     revenue_range := ""; employees := ""; employee_range := ""; industry := "";
     sub_industry := ""; ownership_type := ""; business_model := "";
     linkedin_url := linkedin; facebook_url := ""; twitter_url := "";
     address := ""; city := ""; state := ""; zip_code := ""; country := "";
     zoominfo_id := "" |}.

Definition acme : Company :=
  example_company "Acme" "acme.example/" "https://www.linkedin.com/company/acme".

(** The site [https://acme.example] is unreachable for both backends; for
    any other URL the crawler fails and Firecrawl answers. *)
Definition acme_world : World :=
  simple_world
    (fun _ => Raises "net::ERR_NAME_NOT_RESOLVED")
    (fun url =>
       if String.eqb url "https://acme.example" then Raises "Request failed"
       else Returns FcObject).



(** A schedule that interleaves their turns. *)
Definition example_schedule : list nat := [2; 0; 0; 1; 2; 0; 2; 2; 0]%nat.

(** Twelve tasks. *)
Definition twelve_companies : list Company := replicate 12 acme.

(** A pipeline that has not run: the empty ledger and no file. *)
Definition fresh_pipeline : Pipeline := {| costs := init_costs; csv_files := [] |}.

(** Every page renders, and closing the crawler raises. *)
Definition closing_fails_world : World :=
  {| random_choice := fun _ => 0%nat;
     crawler_enter := fun _ => Returns tt;
     crawler_arun := fun _ url _ => plain_page url;
     crawler_exit := fun _ => Raises "Browser closed unexpectedly";
     firecrawl_scrape_url := fun _ _ => Raises "Payment Required" |}.


(** ** Further notions *)

(** The world [w] with another Firecrawl service. *)
Definition with_firecrawl (w : World)
    (fc : string -> FirecrawlParams -> outcome FirecrawlResponse) : World :=
  {| random_choice := random_choice w;
     crawler_enter := crawler_enter w;
     crawler_arun := crawler_arun w;
     crawler_exit := crawler_exit w;
     firecrawl_scrape_url := fc |}.

(** The cost of the fetch stored under a key of [scraping_results], 0 when
    the key is absent. *)
Definition entry_cost (entry : option sr_entry) : Q :=
  match entry with
  | Some (Fetched r) => get_cost_or_zero r
  | _ => 0%Q
  end.


(** In this world no Primary attempt of this scraper fails after having
    recorded its cost. *)
Definition fails_cleanly (w : World) (self : SmartScrapingWorkflow) (env : Environ)
  : Prop :=
  forall url instr c,
    succeeded (run w (_try_crawl4ai self env url instr) c).1 = false ->
    (run w (_try_crawl4ai self env url instr) c).2 = c.



(** A company whose LinkedIn column has no scheme. *)
Definition bare_linkedin : Company :=
  example_company "Acme" "acme.example/" "www.linkedin.com/company/acme".

(** ** [SmartScrapingWorkflow.__init__] and the proxy pool *)

(** The variables [__init__] and [_load_proxy_pool] read. *)
Record InitEnviron : Type := {
  FIRECRAWL_API_KEY : option string;
  CRAWL4AI_LLM_PROVIDER : option string;
  CRAWL4AI_USE_PROXY : option string;
  PROXY_TYPE : option string;
  PROXY_URL : option string;
  PROXY_USERNAME : option string;
  PROXY_PASSWORD : option string;
  ROTATING_PROXY_URL : option string;
  ROTATING_PROXY_USERNAME : option string;
  ROTATING_PROXY_PASSWORD : option string
}.

(** [str.lower] for one character (code points below 256): the letters
    A-Z and the capital letters of Latin-1 move up by 32. *)
Definition py_lower_char (a : ascii) : ascii :=
  let n := nat_of_ascii a in
  if ((65 <=? n) && (n <=? 90) || (192 <=? n) && (n <=? 214)
      || (216 <=? n) && (n <=? 222))%nat
  then ascii_of_nat (n + 32)
  else a.

(** [s.lower()]. *)
Fixpoint py_lower (s : string) : string :=
  match s with
  | EmptyString => EmptyString
  | String a s' => String (py_lower_char a) (py_lower s')
  end.

(** Lines 57-81, on the list [self.proxy_pool].  The entry of a rotating
    proxy has one more key, ['type'], which nothing reads. *)
Definition _load_proxy_pool (e : InitEnviron) (proxy_pool : list Proxy) : list Proxy :=
  let proxy_type := getenv_default (PROXY_TYPE e) "single" in
  if String.eqb proxy_type "single" then
    match PROXY_URL e with
    | Some url =>
        if str_truthy (PROXY_URL e) then
          (proxy_pool ++ [{| proxy_url := url;
                             proxy_username := PROXY_USERNAME e;
                             proxy_password := PROXY_PASSWORD e |}])%list
        else proxy_pool
    | None => proxy_pool
    end
  else if String.eqb proxy_type "rotating" then
    match ROTATING_PROXY_URL e with
    | Some rotating_url =>
        if str_truthy (ROTATING_PROXY_URL e) then
          (proxy_pool ++ [{| proxy_url := rotating_url;
                             proxy_username := ROTATING_PROXY_USERNAME e;
                             proxy_password := ROTATING_PROXY_PASSWORD e |}])%list
        else proxy_pool
    | None => proxy_pool
    end
  else proxy_pool.

(** Lines 37-55.  [firecrawl_app] is the constructor of the Firecrawl
    client, which may refuse the key; the scraper comes with its ledger. *)
Definition __init__ (firecrawl_app : option string -> outcome unit) (e : InitEnviron)
  : outcome (SmartScrapingWorkflow * Costs) :=
  match firecrawl_app (FIRECRAWL_API_KEY e) with
  | Raises msg => Raises msg
  | Returns _ =>
      let llm_provider := getenv_default (CRAWL4AI_LLM_PROVIDER e) "deepseek" in
      let use_proxy :=
        String.eqb (py_lower (getenv_default (CRAWL4AI_USE_PROXY e) "false")) "true" in
      let costs := {| crawl4ai := 0; firecrawl := 0; total_pages := 0 |} in
      let proxy_pool := [] in
      let proxy_pool :=
        if use_proxy then _load_proxy_pool e proxy_pool else proxy_pool in
      Returns ({| llm_provider := llm_provider; use_proxy := use_proxy;
                  proxy_pool := proxy_pool |}, costs)
  end.

(** ** Bulk scraping and recommendations *)

(** [a < b] and [max(a, b)] on floats. *)
Definition Qltb (a b : Q) : bool := negb (Qle_bool b a).

Definition py_max (a b : Q) : Q := if Qltb a b then b else a.

(** The dict [_generate_recommendations] returns: the three entries of
    ['cost_analysis'] and the ['suggestion']. *)
Record Recommendations : Type := {
  cost_analysis_total_cost : Q;
  average_per_page : Q;
  crawl4ai_percentage : Q;
  suggestion : string
}.

(** Lines 325-345, of the ledger [self.costs]. *)
Definition _generate_recommendations (ledger : Costs) : Recommendations :=
  let total := (crawl4ai ledger + firecrawl ledger)%Q in
  let avg_cost := (total / inject_Z (Z.max (total_pages ledger) 1))%Q in
  {| cost_analysis_total_cost := total;
     average_per_page := avg_cost;
     crawl4ai_percentage := ((crawl4ai ledger / py_max total 0.01) * 100)%Q;
     suggestion :=
       if Qltb (crawl4ai ledger * 10) (firecrawl ledger) then
         "Consider investigating why Crawl4AI is failing. Maybe need better proxies?"
       else if Qltb avg_cost 0.001 then
         "Excellent cost efficiency! Crawl4AI is working well."
       else "Good balance between cost and reliability." |}.

(** Lines 313-323: reads the ledger and logs it. *)
Definition _print_cost_summary : prog unit := GetCosts (fun _ => Ret tt).

(** The dict [bulk_scrape] returns; [summary_costs] is its ['costs'], the
    ledger itself. *)
Record BulkSummary : Type := {
  total_urls : nat;
  successful : nat;
  failed : nat;
  failed_urls : list string;
  summary_costs : Costs;
  results : list FetchResult;
  recommendations : Recommendations
}.

(** Lines 283-298: the loop over [enumerate(urls)], from index [i]. *)
Fixpoint bulk_loop (self : SmartScrapingWorkflow) (env : Environ)
    (urls : list string) (extraction_instructions : option string) (i : nat)
    (results : list FetchResult) (failed_urls : list string)
  : prog (list FetchResult * list string) :=
  match urls with
  | [] => Ret (results, failed_urls)
  | url :: urls' =>
      result <- Await (scrape_url self env url extraction_instructions);;
      let '(results, failed_urls) :=
        if get_success result then ((results ++ [result])%list, failed_urls)
        else (results, (failed_urls ++ [url])%list) in
      Await (Ret tt);;
      (if ((Z.of_nat i + 1) mod 10 =? 0)%Z then _print_cost_summary else Ret tt);;
      bulk_loop self env urls' extraction_instructions (S i) results failed_urls
  end.

Definition bulk_scrape (self : SmartScrapingWorkflow) (env : Environ)
    (urls : list string) (extraction_instructions : option string)
  : prog BulkSummary :=
  collected <- bulk_loop self env urls extraction_instructions 0 [] [];;
  GetCosts (fun ledger =>
    Ret {| total_urls := length urls;
           successful := length collected.1;
           failed := length collected.2;
           failed_urls := collected.2;
           summary_costs := ledger;
           results := collected.1;
           recommendations := _generate_recommendations ledger |}).

(** What [scrape_url] returns for a URL when it runs alone. *)
Definition fetched (w : World) (self : SmartScrapingWorkflow) (env : Environ)
    (extraction_instructions : option string) (url : string) : FetchResult :=
  result_of w (scrape_url self env url extraction_instructions).


(** ** File names and summary statistics *)

(** [s.replace(old, new)] for one-character [old] and [new]. *)
Fixpoint py_replace_char (old new : ascii) (s : string) : string :=
  match s with
  | EmptyString => EmptyString
  | String a s' =>
      String (if Ascii.eqb a old then new else a) (py_replace_char old new s')
  end.

(** Line 225 of [save_outputs] (and line 47 of the quick test), of
    [company['company_name']]. *)
Definition safe_name (company_name : string) : string :=
  py_replace_char "/" "_" (py_replace_char " " "_" company_name).

(** Lines 229 and 235: the two files of a company, as path components
    below [self.output_dir]. *)
Definition markdown_path (company0 : Company) : list string :=
  ["markdown"; String.append (safe_name (company_name company0)) ".md"].

Definition json_path (company0 : Company) : list string :=
  ["json"; String.append (safe_name (company_name company0)) ".json"].

(** [a in s]. *)
Fixpoint contains_char (a : ascii) (s : string) : bool :=
  match s with
  | EmptyString => false
  | String b s' => Ascii.eqb b a || contains_char a s'
  end.



(** ** More example inputs *)

(** Proxying switched on in capitals, with a static proxy. *)
Definition proxy_environ : InitEnviron :=
  {| FIRECRAWL_API_KEY := Some "fc-key";
     CRAWL4AI_LLM_PROVIDER := None;
     CRAWL4AI_USE_PROXY := Some "TRUE";
     PROXY_TYPE := None;
     PROXY_URL := Some "http://proxy.example:8080";
     PROXY_USERNAME := Some "user";
     PROXY_PASSWORD := None;
     ROTATING_PROXY_URL := None;
     ROTATING_PROXY_USERNAME := None;
     ROTATING_PROXY_PASSWORD := None |}.

(** Nothing can be reached. *)
Definition offline_world : World :=
  simple_world (fun _ => Raises "net::ERR_INTERNET_DISCONNECTED")
               (fun _ => Raises "Connection refused").

Definition example_urls : list string :=
  ["https://example.com"; "https://example.com/about"; "https://example.com/products";
   "https://example.com/contact"; "https://example.com/blog"].
(* ================================================================== *)
(** * Properties *)

Local Open Scope Q_scope.

(** ** Running a coroutine alone *)

Lemma run_bind {A B} (w : World) (p : prog A) (f : A -> prog B) (c : Costs) :
  run w (bind p f) c = let '(a, c1) := run w p c in run w (f a) c1.
Proof.
  revert c. induction p as [a|k IH|k IH|c' k IH|R e k IH]; intros c; simpl; auto.
Qed.

Lemma run_add_cost (w : World) (i : increment) (c : Costs) :
  run w (add_cost i) c = (tt, apply_increment i c).
Proof. reflexivity. Qed.

Lemma run_get_proxy (w : World) (self : SmartScrapingWorkflow) (c : Costs) :
  run w (if use_proxy self then _get_proxy self else Ret None) c
  = (selected_proxy w self, c).
Proof.
  unfold selected_proxy, _get_proxy.
  destruct (use_proxy self); [|reflexivity].
  destruct (proxy_pool self); reflexivity.
Qed.

Lemma run_llm_extraction (w : World) cfg url provider api_key model instr (c : Costs) :
  run w (llm_extraction cfg url provider api_key model instr) c
  = (fst (run w (llm_extraction cfg url provider api_key model instr) init_costs), c).
Proof.
  unfold llm_extraction.
  destruct api_key as [key|]; [|reflexivity].
  destruct (String.eqb provider "openai" && str_truthy (Some key))%bool; [|reflexivity].
  simpl.
  destruct (crawler_arun w cfg url _) as [llm_result|msg]; [|reflexivity].
  destruct (cr_extracted_content llm_result) as [content|]; [|reflexivity].
  destruct (cr_success llm_result && text_truthy content)%bool; [|reflexivity].
  destruct (json_loads content); reflexivity.
Qed.

(** The block under [async with], as a function of the page the crawler
    renders. *)
Lemma run_crawl4ai_body (w : World) env cfg url provider api_key model proxy instr c :
  run w (crawl4ai_body env cfg url provider api_key model proxy instr) c
  = match crawler_arun w cfg url None with
    | Raises msg => (Raises msg, c)
    | Returns page =>
        if cr_success page then
          match page_cost provider env (estimated_tokens (cr_markdown page)) with
          | Raises msg => (Raises msg, c)
          | Returns cost =>
              (match extracted_field
                       (fst (run w (llm_extraction cfg url provider api_key model instr)
                               init_costs)) page with
               | Raises msg => Raises msg
               | Returns extracted =>
                   Returns (Some
                     (Crawl4aiPage provider model cost
                        {| markdown := cr_markdown page;
                           extracted := extracted;
                           links := cr_links page;
                           images := getenv_default (cr_images page) (JArr []) |}
                        (option_map proxy_url proxy)))
               end,
               apply_increment (AddPages 1) (apply_increment (AddCrawl4ai cost) c))
          end
        else (Returns None, c)
    end.
Proof.
  unfold crawl4ai_body. simpl.
  destruct (crawler_arun w cfg url None) as [page|msg]; [|reflexivity].
  destruct (cr_success page); [|reflexivity].
  rewrite run_bind, run_llm_extraction.
  destruct (page_cost provider env _) as [cost|msg]; [|reflexivity].
  simpl.
  destruct (extracted_field _ page); reflexivity.
Qed.

(** [_try_crawl4ai] run alone: what it returns and what it leaves in the
    ledger, from the answers of the crawler. *)
Lemma run_try_crawl4ai (w : World) self env url instr c :
  run w (_try_crawl4ai self env url instr) c
  = let '(provider, api_key, model) := _get_llm_config self env in
    let cfg := selected_browser_config w self in
    match crawler_enter w cfg with
    | Raises msg => (Some (AdapterError msg), c)
    | Returns _ =>
        let '(body, c1) :=
          run w (crawl4ai_body env cfg url provider api_key model
                   (selected_proxy w self) instr) c in
        match crawler_exit w cfg with
        | Raises msg => (Some (AdapterError msg), c1)
        | Returns _ =>
            match body with
            | Raises msg => (Some (AdapterError msg), c1)
            | Returns r => (r, c1)
            end
        end
    end.
Proof.
  unfold _try_crawl4ai, selected_browser_config.
  destruct (_get_llm_config self env) as [[provider api_key] model].
  rewrite run_bind, run_get_proxy. cbv beta iota.
  unfold await. cbn [bind run answer].
  destruct (crawler_enter w _) as [[]|msg]; [|reflexivity].
  rewrite run_bind.
  destruct (run w (crawl4ai_body _ _ _ _ _ _ _ _) c) as [body c1].
  cbn [bind run answer].
  destruct (crawler_exit w _) as [[]|msg]; [|reflexivity].
  destruct body; reflexivity.
Qed.

Lemma run_try_firecrawl (w : World) self url instr c :
  run w (_try_firecrawl self url instr) c
  = match firecrawl_scrape_url w url (firecrawl_params instr) with
    | Raises msg => (Some (AdapterError msg), c)
    | Returns response =>
        if fc_truthy response then
          (Some (FirecrawlPage 0.01 response),
           apply_increment (AddPages 1) (apply_increment (AddFirecrawl 0.01) c))
        else (None, c)
    end.
Proof.
  unfold _try_firecrawl, firecrawl_params. simpl.
  destruct (firecrawl_scrape_url w url _) as [response|msg]; [|reflexivity].
  destruct (fc_truthy response); reflexivity.
Qed.

(** [scrape_url] run alone, from what the two adapters do. *)
Lemma run_scrape_url (w : World) self env url instr c :
  run w (scrape_url self env url instr) c
  = let '(r1, c1) := run w (_try_crawl4ai self env url instr) c in
    if succeeded r1 then (default (AdapterError "") r1, c1)
    else
      let '(r2, c2) := run w (_try_firecrawl self url instr) c1 in
      (after_firecrawl url r2, c2).
Proof.
  assert (Hfallback : forall c1,
    run w (firecrawl_fallback self url instr) c1
    = let '(r2, c2) := run w (_try_firecrawl self url instr) c1 in
      (after_firecrawl url r2, c2)).
  { intros c1. unfold firecrawl_fallback. cbn [bind run]. rewrite run_bind.
    destruct (run w (_try_firecrawl self url instr) c1) as [r2 c2]. reflexivity. }
  unfold scrape_url. cbn [bind run]. rewrite run_bind.
  destruct (run w (_try_crawl4ai self env url instr) c) as [[r1|] c1]; cbn [succeeded].
  - destruct (get_success r1); [reflexivity|apply Hfallback].
  - apply Hfallback.
Qed.

(** ** The Secondary adapter *)

(** A Secondary fetch that succeeds returns the response at the fixed cost
    and records that cost for one page. *)
Lemma try_firecrawl_success (w : World) self url instr c c' r :
  run w (_try_firecrawl self url instr) c = (Some r, c') ->
  get_success r = true ->
  exists response,
    firecrawl_scrape_url w url (firecrawl_params instr) = Returns response /\
    fc_truthy response = true /\
    r = FirecrawlPage 0.01 response /\
    c' = apply_increment (AddPages 1) (apply_increment (AddFirecrawl 0.01) c).
Proof.
  rewrite run_try_firecrawl.
  destruct (firecrawl_scrape_url w url _) as [response|msg].
  - destruct (fc_truthy response) eqn:Htruthy; [|discriminate].
    intros [= <- <-] _. eauto.
  - intros [= <- <-]. discriminate.
Qed.

(** C8.  A successful Secondary fetch costs 0.01: the result carries that
    cost and the ledger's Firecrawl total grows by it, for one more page,
    whatever the URL, the instructions and the response are. *)
Theorem firecrawl_cost_is_fixed (w : World) (self : SmartScrapingWorkflow)
    (url : string) (instr : option string) (c c' : Costs) (r : FetchResult) :
  run w (_try_firecrawl self url instr) c = (Some r, c') ->
  get_success r = true ->
  get_cost r = Some 0.01 /\
  get_source r = Some "firecrawl"%string /\
  firecrawl c' = firecrawl c + 0.01 /\
  crawl4ai c' = crawl4ai c /\
  total_pages c' = (total_pages c + 1)%Z.
Proof.
  intros Hrun Hok.
  destruct (try_firecrawl_success _ _ _ _ _ _ _ Hrun Hok) as (response & _ & _ & -> & ->).
  repeat split.
Qed.

Lemma firecrawl_cost_is_fixed_witness :
  let w := simple_world plain_page (fun _ => Returns FcObject) in
  let '(r, c') := run w (_try_firecrawl example_self "https://example.com" None) init_costs in
  r = Some (FirecrawlPage 0.01 FcObject) /\ firecrawl c' = 0 + 0.01.
Proof.
  split; [reflexivity|].
  exact (proj1 (proj2 (proj2
    (firecrawl_cost_is_fixed (simple_world plain_page (fun _ => Returns FcObject))
       example_self "https://example.com" None init_costs _ _ eq_refl eq_refl)))).
Defined.

(** ** The Primary adapter *)

(** The provider [_get_llm_config] names is priced as the configuration
    says. *)
Lemma page_cost_configured (self : SmartScrapingWorkflow) (env : Environ)
    (tokens cost : Q) :
  page_cost (_get_llm_config self env).1.1 env tokens = Returns cost ->
  exists price,
    configured_price_per_million self env = Some price /\
    cost = (tokens / 1000000) * price.
Proof.
  unfold _get_llm_config, configured_price_per_million, page_cost.
  destruct (String.eqb (llm_provider self) "deepseek"); cbn.
  { intros [= <-]. eauto. }
  destruct (String.eqb (llm_provider self) "grok"); cbn.
  { intros [= <-]. eauto. }
  destruct (OPENAI_NANO_COST_PER_M env) as [[q|msg]|]; cbn.
  - intros [= <-]. eauto.
  - discriminate.
  - intros [= <-]. eauto.
Qed.

(** The tokens the code estimates are the characters of the markdown over
    four. *)
Lemma estimated_tokens_spec (page : CrawlResult) :
  estimated_tokens (cr_markdown page) == estimated_token_count page.
Proof.
  unfold estimated_tokens, estimated_token_count, markdown_chars.
  destruct (cr_markdown page) as [text|]; [|reflexivity].
  destruct text; reflexivity.
Qed.

(** A Primary fetch that succeeds rendered a page, priced it, and recorded
    exactly that price for one page. *)
Lemma try_crawl4ai_success (w : World) self env url instr c c' r :
  run w (_try_crawl4ai self env url instr) c = (Some r, c') ->
  get_success r = true ->
  exists page cost,
    crawler_arun w (selected_browser_config w self) url None = Returns page /\
    cr_success page = true /\
    page_cost (_get_llm_config self env).1.1 env (estimated_tokens (cr_markdown page))
      = Returns cost /\
    extracted_field (llm_extracted w self env url instr) page
      = Returns (match r with Crawl4aiPage _ _ _ data _ => extracted data | _ => JNull end) /\
    get_cost r = Some cost /\
    get_source r = Some "crawl4ai"%string /\
    c' = apply_increment (AddPages 1) (apply_increment (AddCrawl4ai cost) c).
Proof.
  rewrite run_try_crawl4ai. unfold llm_extracted.
  destruct (_get_llm_config self env) as [[provider api_key] model]. cbn [fst snd].
  destruct (crawler_enter w _) as [[]|msg]; [|intros [= <- <-]; discriminate].
  rewrite run_crawl4ai_body.
  destruct (crawler_arun w _ url None) as [page|msg].
  2:{ destruct (crawler_exit w _) as [[]|?]; intros [= <- <-]; discriminate. }
  destruct (cr_success page) eqn:Hok.
  2:{ destruct (crawler_exit w _) as [[]|?]; intros [= <-]; discriminate. }
  destruct (page_cost provider env _) as [cost|msg] eqn:Hcost.
  2:{ destruct (crawler_exit w _) as [[]|?]; intros [= <- <-]; discriminate. }
  destruct (crawler_exit w _) as [[]|?]; [|intros [= <- <-]; discriminate].
  destruct (extracted_field _ page) as [extracted|msg] eqn:Hex;
    [|intros [= <- <-]; discriminate].
  intros [= <- <-] _. exists page, cost. repeat split; assumption.
Qed.

(** C7.  A successful Primary fetch records
    [(estimated_token_count / 1,000,000) * price]: the tokens are the
    characters of the rendered markdown over four (none without markdown),
    the price is the one configured for the provider.  The result's [cost]
    is that amount and the ledger's Crawl4AI total grows by it. *)
Theorem crawl4ai_cost_formula (w : World) (self : SmartScrapingWorkflow)
    (env : Environ) (url : string) (instr : option string) (c c' : Costs)
    (r : FetchResult) :
  run w (_try_crawl4ai self env url instr) c = (Some r, c') ->
  get_success r = true ->
  exists page price cost,
    crawler_arun w (selected_browser_config w self) url None = Returns page /\
    configured_price_per_million self env = Some price /\
    get_cost r = Some cost /\
    cost == (estimated_token_count page / 1000000) * price /\
    crawl4ai c' = crawl4ai c + cost /\
    firecrawl c' = firecrawl c /\
    total_pages c' = (total_pages c + 1)%Z.
Proof.
  intros Hrun Hok.
  destruct (try_crawl4ai_success _ _ _ _ _ _ _ _ Hrun Hok)
    as (page & cost & Hpage & _ & Hcost & _ & Hget & _ & ->).
  destruct (page_cost_configured _ _ _ _ Hcost) as (price & Hprice & ->).
  exists page, price, ((estimated_tokens (cr_markdown page) / 1000000) * price).
  repeat split; try assumption.
  rewrite (estimated_tokens_spec page). reflexivity.
Qed.

Lemma crawl4ai_cost_formula_witness :
  let w := simple_world plain_page (fun _ => Returns FcObject) in
  exists page price cost,
    crawler_arun w (selected_browser_config w example_self) "https://example.com" None
      = Returns page /\
    configured_price_per_million example_self example_env = Some price /\
    price = 0.14 /\
    cost == (16 / 4 / 1000000) * 0.14 /\
    crawl4ai (run w (_try_crawl4ai example_self example_env "https://example.com" None)
                init_costs).2 = 0 + cost.
Proof.
  intros w.
  destruct (crawl4ai_cost_formula w example_self example_env "https://example.com"
              None init_costs _ _ eq_refl eq_refl)
    as (page & price & cost & Hpage & Hprice & Hget & Hcost & Hledger & _).
  exists page, price, cost.
  injection Hprice as <-. injection Hpage as <-.
  repeat split; try assumption.
Defined.

(** A parse failure of the LLM pass is swallowed: when the base render
    carries no [extracted_content], the fetch succeeds with the rendered
    markdown and [extracted] absent. *)
Lemma llm_parse_failure_is_tolerated (w : World) self env url instr c page cost :
  crawler_enter w (selected_browser_config w self) = Returns tt ->
  crawler_exit w (selected_browser_config w self) = Returns tt ->
  crawler_arun w (selected_browser_config w self) url None = Returns page ->
  cr_success page = true ->
  (forall content, cr_extracted_content page = Some content -> text_truthy content = false) ->
  json_truthy (llm_extracted w self env url instr) = false ->
  page_cost (_get_llm_config self env).1.1 env (estimated_tokens (cr_markdown page))
    = Returns cost ->
  exists r,
    run w (_try_crawl4ai self env url instr) c
    = (Some r, apply_increment (AddPages 1) (apply_increment (AddCrawl4ai cost) c)) /\
    get_success r = true /\
    match r with
    | Crawl4aiPage _ _ _ data _ =>
        markdown data = cr_markdown page /\ extracted data = JNull
    | _ => False
    end.
Proof.
  intros Henter Hexit Hpage Hok Hbase Hllm Hcost.
  rewrite run_try_crawl4ai. unfold llm_extracted in Hllm.
  destruct (_get_llm_config self env) as [[provider api_key] model]. cbn [fst snd] in *.
  rewrite Henter, run_crawl4ai_body, Hpage, Hok, Hcost, Hexit.
  unfold extracted_field. rewrite Hllm.
  destruct (cr_extracted_content page) as [t|].
  - rewrite (Hbase t eq_refl). eexists; repeat split.
  - eexists; repeat split.
Qed.

(** C3.  The page renders ([success] is true) and its [extracted_content]
    is not JSON: [_try_crawl4ai] returns a failure record carrying the
    parser's message, after the cost of the page has gone to the ledger. *)
Theorem unparsable_content_fails_the_fetch :
  let w := simple_world unparsable_page (fun _ => Returns FcObject) in
  (exists page content msg,
     crawler_arun w (selected_browser_config w example_self) "https://example.com" None
       = Returns page /\
     cr_success page = true /\
     cr_extracted_content page = Some content /\
     json_loads content = Raises msg) /\
  run w (_try_crawl4ai example_self example_env "https://example.com" None) init_costs
  = (Some (AdapterError "Expecting value: line 1 column 1 (char 0)"),
     {| crawl4ai := 0 + 16 / 4 / 1000000 * 0.14; firecrawl := 0; total_pages := 0 + 1 |}).
Proof.
  split; [|reflexivity].
  eexists _, _, _. repeat split.
Qed.

(** ** The router *)

(** The fallback as the router intends it: the Primary attempt fails and
    leaves the ledger as it was, the Secondary succeeds. *)
Lemma fallback_after_clean_failure (w : World) self env url instr c r1 r2 c2 :
  run w (_try_crawl4ai self env url instr) c = (r1, c) ->
  succeeded r1 = false ->
  run w (_try_firecrawl self url instr) c = (Some r2, c2) ->
  get_success r2 = true ->
  run w (scrape_url self env url instr) c = (r2, c2) /\
  get_source r2 = Some "firecrawl"%string /\
  firecrawl c2 = firecrawl c + 0.01 /\
  crawl4ai c2 = crawl4ai c.
Proof.
  intros H1 Hf1 H2 Hok2.
  rewrite run_scrape_url, H1, Hf1, H2. cbn. rewrite Hok2.
  destruct (try_firecrawl_success _ _ _ _ _ _ _ H2 Hok2) as (response & _ & _ & -> & ->).
  repeat split.
Qed.


(** C1.  The Primary fetch fails (a failure record), the Secondary succeeds
    with cost 0.01: [scrape_url] returns the Secondary result and the
    Firecrawl total grows by 0.01, but the Crawl4AI total has grown too, by
    the cost of the page whose [extracted_content] did not parse. *)
Theorem fallback_changes_primary_total :
  let w := simple_world unparsable_page (fun _ => Returns FcObject) in
  let url := "https://example.com"%string in
  succeeded (run w (_try_crawl4ai example_self example_env url None) init_costs).1 = false /\
  (forall c, run w (_try_firecrawl example_self url None) c
             = (Some (FirecrawlPage 0.01 FcObject),
                apply_increment (AddPages 1) (apply_increment (AddFirecrawl 0.01) c))) /\
  run w (scrape_url example_self example_env url None) init_costs
  = (FirecrawlPage 0.01 FcObject,
     {| crawl4ai := 0 + 16 / 4 / 1000000 * 0.14; firecrawl := 0 + 0.01;
        total_pages := 0 + 1 + 1 |}) /\
  ~ crawl4ai (run w (scrape_url example_self example_env url None) init_costs).2
    == crawl4ai init_costs.
Proof.
  repeat split. intros H. vm_compute in H. discriminate.
Qed.

(** C2.  Both adapters fail: [scrape_url] returns the aggregate failure,
    yet the ledger holds the cost of the page the Primary rendered and one
    page more. *)
Theorem total_failure_records_a_cost :
  let w := simple_world unparsable_page (fun _ => Raises "Payment Required") in
  let url := "https://example.com"%string in
  succeeded (run w (_try_crawl4ai example_self example_env url None) init_costs).1 = false /\
  (forall c, succeeded (run w (_try_firecrawl example_self url None) c).1 = false) /\
  run w (scrape_url example_self example_env url None) init_costs
  = (BothFailed "Both Crawl4AI and Firecrawl failed" url,
     {| crawl4ai := 0 + 16 / 4 / 1000000 * 0.14; firecrawl := 0; total_pages := 0 + 1 |}) /\
  ~ crawl4ai (run w (scrape_url example_self example_env url None) init_costs).2
    == crawl4ai init_costs /\
  total_pages (run w (scrape_url example_self example_env url None) init_costs).2
  <> total_pages init_costs.
Proof.
  repeat split; try (intros H; vm_compute in H; discriminate).
Qed.

(** The same through the other statement that can raise after the record:
    the page renders and is recorded, then leaving [async with] raises. *)
Lemma close_failure_records_a_cost :
  let url := "https://example.com"%string in
  run closing_fails_world (_try_crawl4ai example_self example_env url None) init_costs
  = (Some (AdapterError "Browser closed unexpectedly"),
     {| crawl4ai := 0 + 16 / 4 / 1000000 * 0.14; firecrawl := 0; total_pages := 0 + 1 |}) /\
  run closing_fails_world (scrape_url example_self example_env url None) init_costs
  = (BothFailed "Both Crawl4AI and Firecrawl failed" url,
     {| crawl4ai := 0 + 16 / 4 / 1000000 * 0.14; firecrawl := 0; total_pages := 0 + 1 |}).
Proof. split; reflexivity. Qed.

(** Total failure as the router intends it: both attempts fail and leave
    the ledger as it was. *)
Lemma total_failure_after_clean_failures (w : World) self env url instr c r1 r2 :
  run w (_try_crawl4ai self env url instr) c = (r1, c) ->
  succeeded r1 = false ->
  run w (_try_firecrawl self url instr) c = (r2, c) ->
  succeeded r2 = false ->
  run w (scrape_url self env url instr) c
  = (BothFailed "Both Crawl4AI and Firecrawl failed" url, c).
Proof.
  intros H1 Hf1 H2 Hf2.
  rewrite run_scrape_url, H1, Hf1, H2.
  destruct r2 as [r2|]; cbn in *; [rewrite Hf2|]; reflexivity.
Qed.

(** The Secondary adapter records nothing unless it succeeds. *)
Lemma secondary_failure_ledger (w : World) self url instr c r2 c2 :
  run w (_try_firecrawl self url instr) c = (r2, c2) ->
  succeeded r2 = false ->
  c2 = c.
Proof.
  rewrite run_try_firecrawl.
  destruct (firecrawl_scrape_url w url _) as [response|msg].
  - destruct (fc_truthy response); intros [= <- <-]; [discriminate|reflexivity].
  - intros [= <- <-]. reflexivity.
Qed.

(** C10.  An adapter that sees a falsy answer without an exception returns
    [None], not a failure record, and leaves the ledger alone: the Primary
    when the render reports [success == False], the Secondary when the
    service returns nothing.  The router goes on after a [None] exactly as
    after a failure record: to the Secondary adapter, and from there to the
    aggregate failure. *)
Theorem none_is_a_failed_attempt (w : World) (self : SmartScrapingWorkflow)
    (env : Environ) (url : string) (instr : option string) (c : Costs) :
  let cfg := selected_browser_config w self in
  (forall page,
     crawler_enter w cfg = Returns tt ->
     crawler_arun w cfg url None = Returns page ->
     cr_success page = false ->
     crawler_exit w cfg = Returns tt ->
     run w (_try_crawl4ai self env url instr) c = (None, c)) /\
  (forall response,
     firecrawl_scrape_url w url (firecrawl_params instr) = Returns response ->
     fc_truthy response = false ->
     run w (_try_firecrawl self url instr) c = (None, c)) /\
  (forall r1 c1 r2 c2,
     run w (_try_crawl4ai self env url instr) c = (r1, c1) ->
     r1 = None \/ (exists msg, r1 = Some (AdapterError msg)) ->
     run w (_try_firecrawl self url instr) c1 = (r2, c2) ->
     run w (scrape_url self env url instr) c = (after_firecrawl url r2, c2)) /\
  (forall page response,
     crawler_enter w cfg = Returns tt ->
     crawler_arun w cfg url None = Returns page ->
     cr_success page = false ->
     crawler_exit w cfg = Returns tt ->
     firecrawl_scrape_url w url (firecrawl_params instr) = Returns response ->
     fc_truthy response = false ->
     run w (scrape_url self env url instr) c
     = (BothFailed "Both Crawl4AI and Firecrawl failed" url, c)).
Proof.
  intros cfg.
  assert (Hprimary : forall page,
     crawler_enter w cfg = Returns tt ->
     crawler_arun w cfg url None = Returns page ->
     cr_success page = false ->
     crawler_exit w cfg = Returns tt ->
     run w (_try_crawl4ai self env url instr) c = (None, c)).
  { intros page Henter Hpage Hok Hexit.
    rewrite run_try_crawl4ai.
    destruct (_get_llm_config self env) as [[provider api_key] model].
    unfold cfg in *. cbv zeta.
    rewrite Henter, run_crawl4ai_body, Hpage, Hok, Hexit. reflexivity. }
  assert (Hsecondary : forall c0 response,
     firecrawl_scrape_url w url (firecrawl_params instr) = Returns response ->
     fc_truthy response = false ->
     run w (_try_firecrawl self url instr) c0 = (None, c0)).
  { intros c0 response Hresp Hfalsy.
    rewrite run_try_firecrawl, Hresp, Hfalsy. reflexivity. }
  repeat split.
  - exact Hprimary.
  - apply Hsecondary.
  - intros r1 c1 r2 c2 H1 Hr1 H2.
    rewrite run_scrape_url, H1.
    destruct Hr1 as [->|[msg ->]]; cbn [succeeded get_success]; cbv beta iota;
      rewrite H2; reflexivity.
  - intros page response Henter Hpage Hok Hexit Hresp Hfalsy.
    rewrite run_scrape_url, (Hprimary page), (Hsecondary c response); auto.
Qed.

Lemma none_is_a_failed_attempt_witness :
  let w := simple_world unrendered_page (fun _ => Returns FcNone) in
  let url := "https://example.com"%string in
  run w (_try_crawl4ai example_self example_env url None) init_costs = (None, init_costs) /\
  run w (_try_firecrawl example_self url None) init_costs = (None, init_costs) /\
  run w (scrape_url example_self example_env url None) init_costs
  = (BothFailed "Both Crawl4AI and Firecrawl failed" url, init_costs).
Proof.
  intros w url.
  destruct (none_is_a_failed_attempt w example_self example_env url None init_costs)
    as (Hprimary & Hsecondary & _ & Hboth).
  split; [|split].
  - eapply Hprimary; reflexivity.
  - eapply Hsecondary; reflexivity.
  - eapply Hboth; reflexivity.
Defined.

(** One routing decision is a run of one or two adapter attempts: it
    leaves the ledger those attempts leave. *)
Lemma scrape_url_is_a_run (w : World) self env url instr c :
  let calls := router_calls w self env url instr c in
  (run w (scrape_url self env url instr) c).2 = (observe w self env calls c).2 /\
  ((observe w self env calls c).1
   = [(run w (_try_crawl4ai self env url instr) c).1] \/
   (observe w self env calls c).1
   = [(run w (_try_crawl4ai self env url instr) c).1;
      (run w (_try_firecrawl self url instr)
         (run w (_try_crawl4ai self env url instr) c).2).1]).
Proof.
  cbv zeta. unfold router_calls. rewrite run_scrape_url.
  destruct (run w (_try_crawl4ai self env url instr) c) as [r1 c1] eqn:H1. cbn [fst snd].
  destruct (succeeded r1); cbn [observe fetch]; rewrite H1.
  - auto.
  - destruct (run w (_try_firecrawl self url instr) c1) as [r2 c2]. auto.
Qed.

(** ** Cleaning a URL *)

Lemma has_kept_rev_app (f : ascii -> bool) (s acc : string) :
  has_kept f (String.rev_app s acc) = (has_kept f s || has_kept f acc)%bool.
Proof.
  revert acc. induction s as [|a s IH]; intros acc; cbn; [reflexivity|].
  rewrite IH. cbn. destruct (f a), (has_kept f s), (has_kept f acc); reflexivity.
Qed.

Lemma has_kept_lstrip (f : ascii -> bool) (s : string) :
  has_kept f (lstrip_where f s) = has_kept f s.
Proof.
  induction s as [|a s IH]; cbn; [reflexivity|].
  destruct (f a) eqn:Hf; cbn; [assumption|]. rewrite Hf. reflexivity.
Qed.

Lemma has_kept_rstrip (f : ascii -> bool) (s : string) :
  has_kept f (rstrip_where f s) = has_kept f s.
Proof.
  unfold rstrip_where, String.rev.
  rewrite has_kept_rev_app, has_kept_lstrip, has_kept_rev_app. cbn.
  rewrite !orb_false_r. reflexivity.
Qed.

Lemma startswith_head (s p : string) (a : ascii) :
  startswith s (String a p) = true -> exists s', s = String a s'.
Proof.
  unfold startswith. destruct s as [|b s]; cbn; [discriminate|].
  destruct (ascii_dec a b) as [->|]; [eauto|discriminate].
Qed.

(** A website that is not empty is still not empty once cleaned, so it is
    fetched. *)
Lemma clean_url_nonempty (url : string) :
  url <> ""%string -> clean_url url <> ""%string.
Proof.
  intros Hurl. unfold clean_url.
  apply String.eqb_neq in Hurl. rewrite Hurl.
  set (u := if negb _ then _ else _).
  assert (Hu : has_kept (Ascii.eqb "/"%char) u = true).
  { subst u.
    destruct (startswith (py_strip url) "http://") eqn:H1.
    - apply startswith_head in H1 as [s' ->]. reflexivity.
    - destruct (startswith (py_strip url) "https://") eqn:H2; cbn [orb negb].
      + apply startswith_head in H2 as [s' ->]. reflexivity.
      + reflexivity. }
  rewrite <- has_kept_rstrip in Hu.
  destruct (rstrip_where _ u); [discriminate|congruence].
Qed.

(** ** One company *)

Lemma run_scrape_company_data (w : World) self env company0 c :
  run w (scrape_company_data self env company0) c
  = let results0 :=
      {| company := company0; scraping_results := ∅; scraping_cost := 0 |} in
    let site := clean_url (website company0) in
    let '(results, c1) :=
      if negb (String.eqb site "") then
        let '(main_result, c1) :=
          run w (scrape_url self env site
                   (Some (extraction_prompt (company_name company0)))) c in
        (store_main_site results0 main_result, c1)
      else (results0, c) in
    if (negb (String.eqb (linkedin_url company0) "")
        && startswith (linkedin_url company0) "http")%bool then
      let '(linkedin_result, c2) :=
        run w (scrape_url self env (linkedin_url company0) (Some linkedin_instructions)) c1 in
      (store_linkedin results linkedin_result, c2)
    else (results, c1).
Proof.
  unfold scrape_company_data. rewrite run_bind. cbv zeta.
  destruct (negb (String.eqb (clean_url (website company0)) "")).
  - cbn [bind run]. rewrite run_bind.
    destruct (run w (scrape_url _ _ _ _) c) as [main_result c1]. cbn [run].
    destruct (negb _ && _)%bool; [|reflexivity].
    cbn [bind run]. rewrite run_bind.
    destruct (run w (scrape_url _ _ _ _) c1) as [linkedin_result c2]. reflexivity.
  - cbn [run].
    destruct (negb _ && _)%bool; [|reflexivity].
    cbn [bind run]. rewrite run_bind.
    destruct (run w (scrape_url _ _ _ _) c) as [linkedin_result c2]. reflexivity.
Qed.

(** [scrape_url] answers with a failure only when both adapters failed. *)
Lemma scrape_url_failure (w : World) self env url instr c r c' :
  run w (scrape_url self env url instr) c = (r, c') ->
  get_success r = false ->
  r = BothFailed "Both Crawl4AI and Firecrawl failed" url /\
  succeeded (run w (_try_crawl4ai self env url instr) c).1 = false /\
  succeeded (run w (_try_firecrawl self url instr)
               (run w (_try_crawl4ai self env url instr) c).2).1 = false.
Proof.
  rewrite run_scrape_url.
  destruct (run w (_try_crawl4ai self env url instr) c) as [r1 c1]. cbn [fst snd].
  destruct (succeeded r1) eqn:H1.
  - destruct r1 as [r1|]; [|discriminate]. cbn in *. intros [= <- <-]. congruence.
  - destruct (run w (_try_firecrawl self url instr) c1) as [r2 c2]. cbn [fst snd].
    intros [= <- <-]. unfold after_firecrawl.
    destruct r2 as [r2|]; cbn; [|auto].
    destruct (get_success r2) eqn:H2; [congruence|auto].
Qed.

(** C4 (as the code has it).  The main site fails on both backends and the
    LinkedIn URL succeeds: the result keeps no entry for the main site (a
    failed fetch is not stored; no entry of the mapping is a failed fetch),
    it keeps the successful fetch under [linkedin], and its
    [scraping_cost] is the cost of that fetch. *)
Theorem failed_main_site_is_not_stored (w : World) (self : SmartScrapingWorkflow)
    (env : Environ) (company0 : Company) (c c1 c2 : Costs)
    (main_result linkedin_result : FetchResult) :
  website company0 <> ""%string ->
  run w (scrape_url self env (clean_url (website company0))
           (Some (extraction_prompt (company_name company0)))) c = (main_result, c1) ->
  get_success main_result = false ->
  linkedin_url company0 <> ""%string ->
  startswith (linkedin_url company0) "http" = true ->
  run w (scrape_url self env (linkedin_url company0) (Some linkedin_instructions)) c1
    = (linkedin_result, c2) ->
  get_success linkedin_result = true ->
  exists result cost,
    run w (scrape_company_data self env company0) c = (result, c2) /\
    company result = company0 /\
    scraping_results result = {[ "linkedin"%string := Fetched linkedin_result ]} /\
    scraping_results result !! "main_site"%string = None /\
    scraping_results result !! "linkedin"%string = Some (Fetched linkedin_result) /\
    (forall key r, scraping_results result !! key = Some (Fetched r) -> get_success r = true) /\
    get_cost linkedin_result = Some cost /\
    scraping_cost result == cost.
Proof.
  intros Hsite Hmain Hfail Hlinked Hhttp Hlinkedin Hok.
  rewrite run_scrape_company_data. cbv zeta.
  apply clean_url_nonempty in Hsite.
  apply String.eqb_neq in Hsite, Hlinked.
  rewrite Hsite, Hlinked, Hhttp, Hmain. cbn [negb andb].
  rewrite Hlinkedin.
  unfold store_main_site, store_linkedin. rewrite Hfail, Hok. cbn.
  assert (exists cost, get_cost linkedin_result = Some cost) as [cost Hcost].
  { destruct linkedin_result; try discriminate; cbn; eauto. }
  eexists _, cost. split; [reflexivity|]. cbn [company scraping_results scraping_cost].
  split; [reflexivity|]. split; [reflexivity|].
  split; [reflexivity|]. split; [apply lookup_insert_eq|].
  split; [|split; [assumption|]].
  - intros key r Hkey.
    apply lookup_insert_Some in Hkey as [[_ [= <-]]|[_ Hkey]]; [assumption|].
    rewrite lookup_empty in Hkey. discriminate.
  - unfold get_cost_or_zero. rewrite Hcost. cbn. ring.
Qed.

Lemma failed_main_site_is_not_stored_witness :
  exists result,
    run acme_world (scrape_company_data example_self example_env acme) init_costs
    = (result, {| crawl4ai := 0; firecrawl := 0 + 0.01; total_pages := 0 + 1 |}) /\
    scraping_results result !! "main_site"%string = None /\
    scraping_results result !! "linkedin"%string = Some (Fetched (FirecrawlPage 0.01 FcObject)) /\
    scraping_cost result == 0.01.
Proof.
  destruct (failed_main_site_is_not_stored acme_world example_self example_env acme
              init_costs init_costs
              {| crawl4ai := 0; firecrawl := 0 + 0.01; total_pages := 0 + 1 |}
              (BothFailed "Both Crawl4AI and Firecrawl failed" "https://acme.example")
              (FirecrawlPage 0.01 FcObject))
    as (result & cost & Hrun & _ & _ & Hmain & Hlinkedin & _ & Hcost & Hsum);
    try reflexivity; try discriminate.
  exists result. injection Hcost as <-. auto.
Defined.

(** What [scrape_company_data] returns for Acme. *)
Lemma acme_result :
  (run acme_world (scrape_company_data example_self example_env acme) init_costs).1
  = {| company := acme;
       scraping_results := {[ "linkedin"%string := Fetched (FirecrawlPage 0.01 FcObject) ]};
       scraping_cost := 0 + 0.01 |}.
Proof. vm_compute. reflexivity. Qed.

(** C4, as stated, fails.  Acme's site fails on both backends and its
    LinkedIn URL succeeds, yet the result holds no entry for the main site,
    and no failed fetch under any key. *)
Lemma no_failed_entry_for_acme :
  let site := clean_url (website acme) in
  let prompt := Some (extraction_prompt (company_name acme)) in
  let result :=
    (run acme_world (scrape_company_data example_self example_env acme) init_costs).1 in
  succeeded (run acme_world (_try_crawl4ai example_self example_env site prompt) init_costs).1
    = false /\
  succeeded (run acme_world (_try_firecrawl example_self site prompt) init_costs).1 = false /\
  get_success (run acme_world (scrape_url example_self example_env (linkedin_url acme)
                                 (Some linkedin_instructions)) init_costs).1 = true /\
  scraping_results result !! "main_site"%string = None /\
  ~ (exists key r,
       scraping_results result !! key = Some (Fetched r) /\ get_success r = false).
Proof.
  cbv zeta. rewrite acme_result. cbn [scraping_results].
  split; [reflexivity|]. split; [reflexivity|]. split; [reflexivity|].
  split; [reflexivity|].
  intros (key & r & Hkey & Hfail).
  apply lookup_singleton_Some in Hkey as [_ [= <-]]. discriminate.
Qed.

(** ** Ledgers up to the value of the costs *)

#[local] Instance costs_equiv_equivalence : Equivalence costs_equiv.
Proof.
  split.
  - intros c. repeat split; reflexivity.
  - intros c d (H1 & H2 & H3). repeat split; symmetry; assumption.
  - intros c d e (H1 & H2 & H3) (K1 & K2 & K3).
    repeat split; etransitivity; eassumption.
Qed.

Ltac costs_arith :=
  unfold costs_equiv, costs_plus, total_cost, init_costs in *;
  cbn [crawl4ai firecrawl total_pages apply_increment] in *;
  repeat match goal with
         | H : _ /\ _ |- _ => destruct H
         | i : increment |- _ => destruct i; cbn [crawl4ai firecrawl total_pages apply_increment] in *
         end;
  repeat split; try lra; try lia.

Lemma costs_plus_init (c : Costs) : costs_equiv (costs_plus c init_costs) c.
Proof. costs_arith. Qed.

Lemma apply_increment_plus (i : increment) (c d e : Costs) :
  costs_equiv e (costs_plus (apply_increment i init_costs) d) ->
  costs_equiv (costs_plus (apply_increment i c) d) (costs_plus c e).
Proof. intros H. costs_arith. Qed.

(** ** Coroutines that only add to the ledger *)

Lemma additive_bind {A B} (p : prog A) (f : A -> prog B) :
  additive p -> (forall a, additive (f a)) -> additive (bind p f).
Proof.
  intros Hp Hf. induction Hp as [a|k Hk IH|R e k Hk IH|i k k' Hk Hk' IH]; cbn.
  - apply Hf.
  - constructor. assumption.
  - constructor. assumption.
  - apply (additive_add i _ (bind k' f)); [|assumption].
    intros c. rewrite Hk. reflexivity.
Qed.

Lemma additive_add_cost (i : increment) : additive (add_cost i).
Proof. apply (additive_add i _ (Ret tt)); [reflexivity|constructor]. Qed.

Lemma additive_await_ext {R} (e : extcall R) : additive (await e).
Proof. repeat constructor. Qed.

Lemma additive_call_ext {R} (e : extcall R) : additive (call e).
Proof. repeat constructor. Qed.

Create HintDb additive.
#[local] Hint Resolve additive_add_cost additive_await_ext additive_call_ext : additive.
#[local] Hint Constructors additive : additive.

Ltac additive_step :=
  match goal with
  | |- additive (bind _ _) => apply additive_bind; [|intros ?]
  | |- additive (match ?x with _ => _ end) => destruct x
  | |- additive (if ?b then _ else _) => destruct b
  | |- additive (let '(_, _) := ?x in _) => destruct x
  | |- additive _ => solve [auto with additive]
  end.

Lemma additive_llm_extraction cfg url provider api_key model instr :
  additive (llm_extraction cfg url provider api_key model instr).
Proof. unfold llm_extraction. repeat additive_step. Qed.

Lemma additive_crawl4ai_body env cfg url provider api_key model proxy instr :
  additive (crawl4ai_body env cfg url provider api_key model proxy instr).
Proof.
  unfold crawl4ai_body.
  repeat (additive_step || apply additive_llm_extraction).
Qed.

Lemma additive_get_proxy self : additive (_get_proxy self).
Proof. unfold _get_proxy. repeat additive_step. Qed.

Lemma additive_try_crawl4ai self env url instr :
  additive (_try_crawl4ai self env url instr).
Proof.
  unfold _try_crawl4ai.
  repeat (additive_step || apply additive_crawl4ai_body || apply additive_get_proxy).
Qed.

Lemma additive_try_firecrawl self url instr :
  additive (_try_firecrawl self url instr).
Proof. unfold _try_firecrawl. repeat additive_step. Qed.

Lemma additive_scrape_url self env url instr :
  additive (scrape_url self env url instr).
Proof.
  assert (Hfallback : additive (firecrawl_fallback self url instr)).
  { unfold firecrawl_fallback.
    repeat (additive_step || (constructor; apply additive_try_firecrawl)). }
  unfold scrape_url.
  repeat (additive_step || (constructor; apply additive_try_crawl4ai) || exact Hfallback).
Qed.

Lemma additive_scrape_company_data self env company0 :
  additive (scrape_company_data self env company0).
Proof.
  unfold scrape_company_data.
  repeat (additive_step || (constructor; apply additive_scrape_url)).
Qed.


Section Schedules.

Context {A : Type} (w : World).

(** Run alone from any ledger, such a coroutine returns what it returns
    from the empty ledger and adds what it adds there. *)
Lemma run_additive (p : prog A) :
  additive p ->
  forall c,
    (run w p c).1 = result_of w p /\
    costs_equiv (run w p c).2 (costs_plus c (delta w p)).
Proof.
  unfold result_of, delta.
  induction 1 as [a|k Hk IH|R e k Hk IH|i k k' Hk Hk' IH]; intros c; cbn [run].
  - split; [reflexivity|]. cbn. costs_arith.
  - apply IH.
  - apply IH.
  - rewrite !Hk. cbn [run].
    destruct (IH (apply_increment i c)) as [Hr Hc].
    destruct (IH (apply_increment i init_costs)) as [Hr0 Hc0].
    split; [congruence|].
    rewrite Hc. apply apply_increment_plus. exact Hc0.
Qed.

(** One turn of such a coroutine: what is left of it does not depend on
    the ledger, returns what the whole would have returned, and the ledger
    plus what is left to add is what it was before the turn. *)
Lemma advance_additive (p : prog A) :
  additive p ->
  forall c,
    additive (advance w p c).1 /\
    (advance w p c).1 = (advance w p init_costs).1 /\
    result_of w (advance w p c).1 = result_of w p /\
    costs_equiv (costs_plus (advance w p c).2 (delta w (advance w p c).1))
                (costs_plus c (delta w p)).
Proof.
  induction 1 as [a|k Hk IH|R e k Hk IH|i k k' Hk Hk' IH]; intros c; cbn [advance].
  - repeat split; [constructor|reflexivity..].
  - repeat split; [assumption|reflexivity..].
  - apply IH.
  - rewrite !Hk. cbn [advance].
    destruct (IH (apply_increment i c)) as (Ha & Hp & Hr & Hc).
    destruct (IH (apply_increment i init_costs)) as (_ & Hp0 & _ & _).
    assert (Hk_run : forall c0, run w (GetCosts k) c0 = run w k' (apply_increment i c0)).
    { intros c0. cbn [run]. rewrite Hk. reflexivity. }
    split; [assumption|]. split; [congruence|]. split.
    + rewrite Hr. unfold result_of. rewrite Hk_run.
      destruct (run_additive k' Hk' (apply_increment i init_costs)) as [-> _].
      reflexivity.
    + rewrite Hc. apply apply_increment_plus.
      unfold delta at 1. rewrite Hk_run.
      apply (run_additive k' Hk').
Qed.

Lemma pool_delta_cons (p : prog A) (pool : list (prog A)) :
  pool_delta w (p :: pool) = costs_plus (delta w p) (pool_delta w pool).
Proof. reflexivity. Qed.

Lemma pool_delta_insert (pool : list (prog A)) (i : nat)
    (p p' : prog A) :
  pool !! i = Some p ->
  costs_equiv (costs_plus (delta w p) (pool_delta w (<[i := p']> pool)))
              (costs_plus (delta w p') (pool_delta w pool)).
Proof.
  revert i. induction pool as [|q pool IH]; intros [|i] Hi; try discriminate.
  - injection Hi as ->.
    change (<[0%nat := p']> (p :: pool)) with (p' :: pool).
    rewrite !pool_delta_cons. costs_arith.
  - change (<[S i := p']> (q :: pool)) with (q :: <[i := p']> pool).
    rewrite !pool_delta_cons. specialize (IH i Hi). costs_arith.
Qed.

Lemma gather_steps_additive (sched : list nat) :
  forall (pool : list (prog A)) (c : Costs),
    Forall additive pool ->
    Forall additive (gather_steps w sched pool c).1 /\
    map (result_of w) (gather_steps w sched pool c).1 = map (result_of w) pool /\
    costs_equiv
      (costs_plus (gather_steps w sched pool c).2
                  (pool_delta w (gather_steps w sched pool c).1))
      (costs_plus c (pool_delta w pool)).
Proof.
  induction sched as [|i sched IH]; intros pool c Hpool; cbn [gather_steps].
  - repeat split; [assumption|reflexivity..].
  - destruct (pool !! i) as [p|] eqn:Hi; [|apply IH; assumption].
    assert (Hp : additive p) by (eapply Forall_lookup_1; eassumption).
    destruct (advance_additive p Hp c) as (Ha & _ & Hr & Hc).
    destruct (advance w p c) as [p' c']. cbn [fst snd] in *.
    assert (Hpool' : Forall additive (<[i := p']> pool))
      by (apply Forall_insert; assumption).
    destruct (IH (<[i := p']> pool) c' Hpool') as (IH1 & IH2 & IH3).
    split; [assumption|]. split.
    + rewrite IH2, list_fmap_insert, Hr.
      apply list_insert_id. rewrite list_lookup_fmap, Hi. reflexivity.
    + rewrite IH3.
      pose proof (pool_delta_insert pool i p p' Hi) as Hins.
      clear -Hc Hins. costs_arith.
Qed.

Lemma run_all_additive (pool : list (prog A)) :
  Forall additive pool ->
  forall c,
    (run_all w pool c).1 = map (result_of w) pool /\
    costs_equiv (run_all w pool c).2 (costs_plus c (pool_delta w pool)).
Proof.
  induction 1 as [|p pool Hp Hpool IH]; intros c; cbn [run_all].
  - split; [reflexivity|]. cbn. costs_arith.
  - destruct (run_additive p Hp c) as [Hr Hc].
    destruct (run w p c) as [a c1]. cbn [fst snd] in *.
    destruct (IH c1) as [IHr IHc].
    destruct (run_all w pool c1) as [rest c2]. cbn [fst snd] in *.
    split; [cbn; congruence|].
    rewrite pool_delta_cons. clear -Hc IHc. costs_arith.
Qed.

(** Whatever the schedule, a gathered pool of such coroutines returns what
    its members return alone and adds to the ledger the sum of what they
    add alone: no schedule loses or repeats an addition. *)
Lemma gather_additive (sched : list nat) (pool : list (prog A))
    (c : Costs) :
  Forall additive pool ->
  (gather w sched pool c).1 = map (result_of w) pool /\
  costs_equiv (gather w sched pool c).2 (costs_plus c (pool_delta w pool)).
Proof.
  intros Hpool. unfold gather.
  destruct (gather_steps_additive sched pool c Hpool) as (Ha & Hr & Hc).
  destruct (gather_steps w sched pool c) as [pool' c']. cbn [fst snd] in *.
  destruct (run_all_additive pool' Ha c') as [Hr' Hc'].
  split; [congruence|].
  rewrite Hc'. exact Hc.
Qed.

End Schedules.

(** ** Concurrent fetches *)





(** The contrast: with an [await] between the read and the store, a
    schedule that lets both tasks read before either stores loses one of
    the two additions.  The source has no such update. *)
Lemma update_across_await_is_lost (w : World) :
  let pool := [add_cost_across_await (AddPages 1); add_cost_across_await (AddPages 1)] in
  total_pages (gather w [0; 1; 0; 1]%nat pool init_costs).2 = 1%Z /\
  total_pages (run_all w pool init_costs).2 = 2%Z /\
  ~ additive (add_cost_across_await (AddPages 1)).
Proof.
  split; [reflexivity|]. split; [reflexivity|].
  intros H. inversion H as [| | |i k k' Hk Hk' Heq].
  specialize (Hk init_costs). discriminate Hk.
Qed.

(** ** Batches *)

Lemma store_main_site_company results main_result :
  company (store_main_site results main_result) = company results.
Proof.
  unfold store_main_site.
  destruct (get_success main_result); [|reflexivity].
  destruct (get_data_extracted main_result) as [extracted|]; [|reflexivity].
  destruct (json_truthy extracted); reflexivity.
Qed.

Lemma store_linkedin_company results linkedin_result :
  company (store_linkedin results linkedin_result) = company results.
Proof. unfold store_linkedin. destruct (get_success linkedin_result); reflexivity. Qed.

(** A result is about the company it was asked for. *)
Lemma company_result_company (w : World) self env company0 :
  company (company_result w self env company0) = company0.
Proof.
  unfold company_result, result_of. rewrite run_scrape_company_data. cbv zeta.
  destruct (negb (String.eqb (clean_url (website company0)) "")).
  - destruct (run w (scrape_url _ _ _ _) init_costs) as [main_result c1].
    destruct (negb _ && _)%bool.
    + destruct (run w (scrape_url _ _ _ _) c1) as [linkedin_result c2]. cbn [fst].
      rewrite store_linkedin_company. apply store_main_site_company.
    + cbn [fst]. apply store_main_site_company.
  - destruct (negb _ && _)%bool; [|reflexivity].
    destruct (run w (scrape_url _ _ _ _) init_costs) as [linkedin_result c2]. cbn [fst].
    apply store_linkedin_company.
Qed.

(** A batch returns, under every schedule, the results its companies get
    alone, in the order of the batch. *)
Lemma process_company_batch_results (w : World) self env sched companies c :
  (process_company_batch w self env sched companies c).1
  = map (company_result w self env) companies.
Proof.
  unfold process_company_batch.
  destruct (gather_additive w sched (map (scrape_company_data self env) companies) c)
    as [-> _].
  - apply Forall_fmap, Forall_true. intros co. apply additive_scrape_company_data.
  - rewrite <- list_fmap_compose. reflexivity.
Qed.

Lemma py_slice_take_drop {A} (l : list A) (off n : nat) :
  (off <= length l)%nat ->
  py_slice l (Z.of_nat off) (Z.of_nat off + Z.of_nat n) = take n (drop off l).
Proof.
  intros Hoff. unfold py_slice, slice_bound.
  destruct (Z.ltb_spec (Z.of_nat off) 0); [lia|].
  destruct (Z.ltb_spec (Z.of_nat off + Z.of_nat n) 0); [lia|].
  rewrite (Z.min_l (Z.of_nat off)) by lia. rewrite Nat2Z.id.
  destruct (Z.min_spec (Z.of_nat off + Z.of_nat n) (Z.of_nat (length l)))
    as [[Hlt ->]|[Hge ->]].
  - f_equal. lia.
  - rewrite !take_ge; [reflexivity| |]; rewrite length_drop; lia.
Qed.


Lemma py_range_positive (n step : Z) :
  (0 < step)%Z ->
  py_range 0 n step
  = Returns (map (fun k => (0 + Z.of_nat k * step)%Z) (seq 0 (range_len n step))).
Proof.
  intros Hstep. unfold py_range, range_len.
  destruct (Z.eqb_spec step 0); [lia|].
  destruct (Z.ltb_spec 0 step); [|lia].
  rewrite Z.sub_0_r. reflexivity.
Qed.

Lemma range_len_zero (step : Z) : range_len 0 step = 0%nat.
Proof. reflexivity. Qed.

Lemma range_len_succ (r b : nat) :
  (0 < r)%nat -> (0 < b)%nat ->
  range_len (Z.of_nat r) (Z.of_nat b) = S (range_len (Z.of_nat (r - b)) (Z.of_nat b)).
Proof.
  intros Hr Hb. unfold range_len.
  destruct (Z.ltb_spec 0 (Z.of_nat r)); [|lia].
  destruct (Z.ltb_spec 0 (Z.of_nat (r - b))) as [Hpos|Hzero].
  - replace (Z.of_nat (r - b) - 1)%Z with (Z.of_nat r - 1 + (-1) * Z.of_nat b)%Z by lia.
    rewrite Z.div_add by lia.
    assert (1 <= (Z.of_nat r - 1) / Z.of_nat b)%Z.
    { apply Z.div_le_lower_bound; lia. }
    lia.
  - rewrite Z.div_small by lia. reflexivity.
Qed.

(** The slices the loop takes are the chunks of the task list. *)
Lemma slices_are_chunks (tasks : list Company) (b : nat) :
  (0 < b)%nat ->
  forall (fuel off : nat),
    (off <= length tasks)%nat ->
    (length tasks - off <= fuel)%nat ->
    map (fun i => py_slice tasks i (i + Z.of_nat b))
        (map (fun k => (Z.of_nat off + Z.of_nat k * Z.of_nat b)%Z)
             (seq 0 (range_len (Z.of_nat (length tasks - off)) (Z.of_nat b))))
    = chunks_fuel fuel b (drop off tasks).
Proof.
  intros Hb. induction fuel as [|fuel IH]; intros off Hoff Hfuel.
  - replace (length tasks - off)%nat with 0%nat by lia.
    rewrite range_len_zero. reflexivity.
  - destruct (drop off tasks) as [|x rest] eqn:Hdrop.
    + assert (Hlen : length (drop off tasks) = 0%nat) by (rewrite Hdrop; reflexivity).
      rewrite length_drop in Hlen. rewrite Hlen, range_len_zero.
      reflexivity.
    + assert (Hlen : length (drop off tasks) = S (length rest)) by (rewrite Hdrop; reflexivity).
      rewrite length_drop in Hlen.
      rewrite range_len_succ by lia.
      cbn [seq map chunks_fuel].
      rewrite Z.mul_0_l, Z.add_0_r, py_slice_take_drop, Hdrop by lia.
      f_equal.
      rewrite <- seq_shift, !map_map.
      destruct (Nat.le_gt_cases (off + b) (length tasks)) as [Hin|Hout].
      * specialize (IH (off + b)%nat ltac:(lia) ltac:(lia)).
        replace (length tasks - off - b)%nat with (length tasks - (off + b))%nat by lia.
        rewrite <- Hdrop, drop_drop, <- IH, map_map.
        apply map_ext. intros k. f_equal; lia.
      * replace (length tasks - off - b)%nat with 0%nat by lia.
        rewrite range_len_zero. cbn [seq map].
        rewrite <- Hdrop, drop_drop, drop_ge by lia.
        destruct fuel; reflexivity.
Qed.

Lemma chunks_fuel_concat {A} (b : nat) :
  (0 < b)%nat ->
  forall (fuel : nat) (l : list A),
    (length l <= fuel)%nat -> concat (chunks_fuel fuel b l) = l.
Proof.
  intros Hb. induction fuel as [|fuel IH]; intros l Hl.
  - destruct l; [reflexivity|cbn in Hl; lia].
  - destruct l as [|x l]; [reflexivity|].
    cbn [chunks_fuel concat]. rewrite IH.
    + apply take_drop.
    + rewrite length_drop. cbn in *. lia.
Qed.

Lemma chunks_fuel_bounds {A} (b : nat) :
  (0 < b)%nat ->
  forall (fuel : nat) (l : list A),
    Forall (fun chunk => (0 < length chunk <= b)%nat) (chunks_fuel fuel b l).
Proof.
  intros Hb. induction fuel as [|fuel IH]; intros l; [constructor|].
  destruct l as [|x l]; [constructor|].
  cbn [chunks_fuel]. constructor; [|apply IH].
  rewrite length_take. cbn. lia.
Qed.

Lemma generate_master_csv_nonempty all_results files :
  all_results <> [] ->
  generate_master_csv all_results files = (files ++ [map row_of all_results])%list.
Proof.
  intros Hne. unfold generate_master_csv.
  destruct all_results; [congruence|reflexivity].
Qed.

(** The loop over non-empty batches: the results of all of them in order,
    and one file after each, holding the rows gathered so far. *)
Lemma batch_loop_spec (w : World) self env sched (tasks : list Company)
    (batch_size : Z) :
  forall (starts : list Z) (acc : list CompanyResult) (st : Pipeline),
    let batches := map (fun i => py_slice tasks i (i + batch_size)) starts in
    Forall (fun batch => batch <> []) batches ->
    (batch_loop w self env sched tasks batch_size starts acc st).1
    = (acc ++ map (company_result w self env) (concat batches))%list /\
    csv_files (batch_loop w self env sched tasks batch_size starts acc st).2
    = (csv_files st ++
       map (fun k => map row_of
                       (acc ++ map (company_result w self env)
                                   (concat (take (S k) batches))))
           (seq 0 (length batches)))%list.
Proof.
  cbv zeta. induction starts as [|i starts IH]; intros acc st Hne.
  - cbn. rewrite !app_nil_r. auto.
  - cbn [map] in Hne. apply Forall_cons in Hne as [Hbatch Hne].
    cbn [batch_loop].
    pose proof (process_company_batch_results w self env (sched i)
                  (py_slice tasks i (i + batch_size)) (costs st)) as Hres.
    destruct (process_company_batch w self env (sched i) _ (costs st)) as [batch_results c].
    cbn [fst] in Hres. subst batch_results. unfold wait_for_deep_research.
    set (batch := py_slice tasks i (i + batch_size)) in *.
    set (R := company_result w self env) in *.
    rewrite generate_master_csv_nonempty.
    2:{ destruct batch; [congruence|]. destruct acc; discriminate. }
    destruct (IH (acc ++ map R batch)%list
                {| costs := c;
                   csv_files := (csv_files st ++ [map row_of (acc ++ map R batch)])%list |}
                Hne) as [IH1 IH2].
    split.
    + rewrite IH1. cbn [map concat]. rewrite map_app, app_assoc. reflexivity.
    + rewrite IH2. cbn [csv_files map length seq].
      rewrite <- app_assoc. f_equal. cbn [app]. f_equal.
      * cbn. rewrite app_nil_r. reflexivity.
      * rewrite <- seq_shift, map_map. apply map_ext. intros k.
        cbn [firstn map concat]. rewrite (map_app R), app_assoc. reflexivity.
Qed.

Lemma truncate_to_limit (companies : list Company) (n : Z) :
  (0 < n)%Z -> truncate_companies (Some n) companies = take (Z.to_nat n) companies.
Proof.
  intros Hn. unfold truncate_companies.
  destruct (Z.eqb_spec n 0); [lia|]. cbn [negb].
  transitivity (py_slice companies (Z.of_nat 0) (Z.of_nat 0 + Z.of_nat (Z.to_nat n))).
  { f_equal; lia. }
  rewrite py_slice_take_drop by lia. reflexivity.
Qed.

(** C6 (as the code has it).  For a batch size of at least 1, the pipeline
    cuts the task list (the first [limit] companies when a positive limit
    is given, all of them without one or with a limit of 0) into
    consecutive batches of at most [batch_size], returns one result per
    task in order, and writes one file after each batch, holding the rows
    of all results so far, whatever the schedules of the batches.  Twelve
    tasks in batches of five: batches of 5, 5 and 2, three files, of 5, 10
    and 12 rows. *)
Theorem batches_and_checkpoints (w : World) (self : SmartScrapingWorkflow)
    (env : Environ) (sched : Z -> list nat) (companies : list Company)
    (limit : option Z) (batch_size : Z) (st : Pipeline) :
  (0 < batch_size)%Z ->
  let tasks := truncate_companies limit companies in
  let batches := chunks (Z.to_nat batch_size) tasks in
  exists results st',
    run_research_pipeline w self env sched companies limit batch_size st
      = Returns (results, st') /\
    concat batches = tasks /\
    Forall (fun batch => (0 < length batch <= Z.to_nat batch_size)%nat) batches /\
    results = map (company_result w self env) tasks /\
    map company results = tasks /\
    csv_files st' = (csv_files st ++ checkpoints w self env batches)%list /\
    (limit = None \/ limit = Some 0%Z -> tasks = companies) /\
    (forall n, limit = Some n -> (0 < n)%Z -> tasks = take (Z.to_nat n) companies) /\
    (length tasks = 12%nat -> batch_size = 5%Z ->
     map length batches = [5; 5; 2]%nat /\
     map length (checkpoints w self env batches) = [5; 10; 12]%nat).
Proof.
  intros Hsize tasks batches.
  set (b := Z.to_nat batch_size).
  assert (Hb : (0 < b)%nat) by (unfold b; lia).
  assert (Hbz : batch_size = Z.of_nat b) by (unfold b; lia).
  assert (Hslices :
    map (fun i => py_slice tasks i (i + batch_size))
        (map (fun k => (0 + Z.of_nat k * batch_size)%Z)
             (seq 0 (range_len (Z.of_nat (length tasks)) batch_size)))
    = batches).
  { pose proof (slices_are_chunks tasks b Hb (length tasks) 0) as H.
    rewrite Nat.sub_0_r, drop_0 in H. rewrite Hbz. apply H; lia. }
  assert (Hbounds : Forall (fun batch => (0 < length batch <= b)%nat) batches)
    by apply chunks_fuel_bounds, Hb.
  unfold run_research_pipeline. fold tasks.
  rewrite py_range_positive by assumption.
  destruct (batch_loop_spec w self env sched tasks batch_size
              (map (fun k => (0 + Z.of_nat k * batch_size)%Z)
                   (seq 0 (range_len (Z.of_nat (length tasks)) batch_size)))
              [] st) as [Hres Hfiles].
  { rewrite Hslices. eapply Forall_impl; [exact Hbounds|].
    intros batch [Hpos _] ->. cbn in Hpos. lia. }
  rewrite Hslices in Hres, Hfiles. cbn [app] in Hres.
  assert (Hconcat : concat batches = tasks)
    by (apply chunks_fuel_concat; [exact Hb|reflexivity]).
  rewrite Hconcat in Hres.
  eexists _, _. split; [apply f_equal, surjective_pairing|].
  split; [exact Hconcat|]. split; [exact Hbounds|]. split; [exact Hres|].
  split.
  { rewrite Hres, map_map. rewrite <- (map_id tasks) at 2.
    apply map_ext. intros co. apply company_result_company. }
  split; [exact Hfiles|].
  split; [intros [Hlimit|Hlimit]; unfold tasks; rewrite Hlimit; reflexivity|].
  split.
  { intros n Hlimit Hn. unfold tasks. rewrite Hlimit. apply truncate_to_limit, Hn. }
  intros Hlen Hfive. unfold batches, b, checkpoints, chunks. rewrite Hfive, Hlen.
  do 13 (destruct tasks as [|? tasks]; try discriminate).
  split; reflexivity.
Qed.

Lemma batches_and_checkpoints_witness :
  exists results st',
    run_research_pipeline acme_world example_self example_env (fun _ => example_schedule)
      twelve_companies None 5 fresh_pipeline = Returns (results, st') /\
    length results = 12%nat /\
    map length (csv_files st') = [5; 10; 12]%nat.
Proof.
  destruct (batches_and_checkpoints acme_world example_self example_env
              (fun _ => example_schedule) twelve_companies None 5 fresh_pipeline
              ltac:(reflexivity))
    as (results & st' & Hrun & _ & _ & Hres & _ & Hfiles & _ & _ & Htwelve).
  exists results, st'. split; [exact Hrun|].
  split; [rewrite Hres; reflexivity|].
  rewrite Hfiles. exact (proj2 (Htwelve eq_refl eq_refl)).
Defined.

(** C6, as stated, fails for a batch size below 1 and for a limit of 0.
    With [batch_size = -1] the range of the loop is empty: twelve tasks, no
    batch, no result, no file.  With [batch_size = 0] the range raises.
    With [limit = 0] nothing is cut off: all twelve tasks are processed. *)
Lemma nonpositive_batch_size_makes_no_batch :
  run_research_pipeline acme_world example_self example_env (fun _ => [])
    twelve_companies None (-1) fresh_pipeline = Returns ([], fresh_pipeline) /\
  run_research_pipeline acme_world example_self example_env (fun _ => [])
    twelve_companies None 0 fresh_pipeline = Raises "range() arg 3 must not be zero" /\
  (exists results st',
     run_research_pipeline acme_world example_self example_env (fun _ => [])
       twelve_companies (Some 0%Z) 5 fresh_pipeline = Returns (results, st') /\
     length results = 12%nat /\
     map length (csv_files st') = [5; 10; 12]%nat).
Proof.
  split; [reflexivity|]. split; [reflexivity|].
  eexists _, _. split; [vm_compute; reflexivity|]. split; reflexivity.
Qed.

(** ** The ledger over a run *)










(* ================================================================== *)
(** * Further properties of the scraper and of the pipeline *)

(** ** What the router returns *)

(** X1.  [scrape_url] always answers, and with one of three things: the
    Primary result when the Primary attempt succeeded, a Firecrawl page at
    cost 0.01 when it did not, or the aggregate failure for this URL.  A
    success carries a cost and no error; the error text of an adapter never
    reaches the caller. *)
Theorem scrape_url_returns_a_page_or_the_aggregate_failure (w : World)
    (self : SmartScrapingWorkflow) (env : Environ) (url : string)
    (instr : option string) (c : Costs) :
  let r := (run w (scrape_url self env url instr) c).1 in
  let r1 := (run w (_try_crawl4ai self env url instr) c).1 in
  (get_success r = true /\ get_error r = None /\
   ((r1 = Some r /\ get_source r = Some "crawl4ai"%string /\
     exists cost, get_cost r = Some cost) \/
    (succeeded r1 = false /\ get_source r = Some "firecrawl"%string /\
     get_cost r = Some 0.01))) \/
  (r = BothFailed "Both Crawl4AI and Firecrawl failed" url /\
   succeeded r1 = false /\ get_cost r = None).
Proof.
  cbv zeta. rewrite run_scrape_url.
  destruct (run w (_try_crawl4ai self env url instr) c) as [r1 c1] eqn:H1.
  cbn [fst snd].
  destruct (succeeded r1) eqn:Hok1.
  - destruct r1 as [r1|]; [|discriminate]. cbn in Hok1. cbn [fst default].
    destruct (try_crawl4ai_success _ _ _ _ _ _ _ _ H1 Hok1)
      as (page & cost & _ & _ & _ & _ & Hcost & Hsrc & _).
    left. split; [exact Hok1|].
    split; [destruct r1; try discriminate; reflexivity|].
    left. eauto.
  - destruct (run w (_try_firecrawl self url instr) c1) as [r2 c2] eqn:H2.
    cbn [fst]. unfold after_firecrawl.
    destruct r2 as [r2|]; [|right; auto].
    destruct (get_success r2) eqn:Hok2; [|right; auto].
    destruct (try_firecrawl_success _ _ _ _ _ _ _ H2 Hok2) as (response & _ & _ & -> & _).
    left. split; [reflexivity|]. split; [reflexivity|]. right. auto.
Qed.

(** The Primary adapter does not depend on the Firecrawl service. *)
Lemma try_crawl4ai_with_firecrawl (w : World) fc self env url instr c :
  run (with_firecrawl w fc) (_try_crawl4ai self env url instr) c
  = run w (_try_crawl4ai self env url instr) c.
Proof.
  rewrite !run_try_crawl4ai.
  destruct (_get_llm_config self env) as [[provider api_key] model]. cbv zeta.
  change (selected_browser_config (with_firecrawl w fc) self)
    with (selected_browser_config w self).
  change (selected_proxy (with_firecrawl w fc) self) with (selected_proxy w self).
  change (crawler_enter (with_firecrawl w fc)) with (crawler_enter w).
  change (crawler_exit (with_firecrawl w fc)) with (crawler_exit w).
  destruct (crawler_enter w (selected_browser_config w self)) as [[]|msg]; [|reflexivity].
  rewrite !run_crawl4ai_body.
  change (crawler_arun (with_firecrawl w fc)) with (crawler_arun w).
  assert (Hllm : forall i,
    run (with_firecrawl w fc)
      (llm_extraction (selected_browser_config w self) url provider api_key model i)
      init_costs
    = run w (llm_extraction (selected_browser_config w self) url provider api_key model i)
        init_costs).
  { intros i. unfold llm_extraction.
    destruct api_key as [key|]; [|reflexivity].
    destruct (String.eqb provider "openai" && str_truthy (Some key))%bool; [|reflexivity].
    unfold await. cbn [bind run answer].
    change (crawler_arun (with_firecrawl w fc)) with (crawler_arun w).
    destruct (crawler_arun w _ url _) as [llm_result|msg]; [|reflexivity].
    destruct (cr_extracted_content llm_result) as [content|]; [|reflexivity].
    destruct (cr_success llm_result && text_truthy content)%bool; [|reflexivity].
    destruct (json_loads content); reflexivity. }
  rewrite Hllm. reflexivity.
Qed.

(** X2.  When the Primary attempt succeeds, the Firecrawl service is not
    consulted: the answer and the ledger are the same whatever that service
    would have done, the page comes from Crawl4AI, and the Firecrawl total
    is as before. *)
Theorem successful_primary_never_calls_firecrawl (w : World)
    (self : SmartScrapingWorkflow) (env : Environ) (url : string)
    (instr : option string) (c : Costs)
    (fc : string -> FirecrawlParams -> outcome FirecrawlResponse) :
  succeeded (run w (_try_crawl4ai self env url instr) c).1 = true ->
  run (with_firecrawl w fc) (scrape_url self env url instr) c
  = run w (scrape_url self env url instr) c /\
  get_source (run w (scrape_url self env url instr) c).1 = Some "crawl4ai"%string /\
  firecrawl (run w (scrape_url self env url instr) c).2 = firecrawl c.
Proof.
  intros Hok. rewrite !run_scrape_url, try_crawl4ai_with_firecrawl.
  destruct (run w (_try_crawl4ai self env url instr) c) as [r1 c1] eqn:H1.
  cbn [fst] in Hok. rewrite Hok. split; [reflexivity|].
  destruct r1 as [r1|]; [|discriminate]. cbn in Hok. cbn [fst snd default].
  destruct (try_crawl4ai_success _ _ _ _ _ _ _ _ H1 Hok)
    as (page & cost & _ & _ & _ & _ & _ & Hsrc & ->).
  split; [exact Hsrc|reflexivity].
Qed.

Lemma successful_primary_never_calls_firecrawl_witness :
  let w := simple_world plain_page (fun _ => Raises "Payment Required") in
  let url := "https://example.com"%string in
  succeeded (run w (_try_crawl4ai example_self example_env url None) init_costs).1 = true /\
  run (with_firecrawl w (fun _ _ => Returns FcObject))
    (scrape_url example_self example_env url None) init_costs
  = run w (scrape_url example_self example_env url None) init_costs.
Proof.
  cbv zeta. split; [reflexivity|].
  apply (successful_primary_never_calls_firecrawl
           (simple_world plain_page (fun _ => Raises "Payment Required"))
           example_self example_env "https://example.com" None init_costs
           (fun _ _ => Returns FcObject)).
  reflexivity.
Defined.

(** X3.  The extraction instructions reach Crawl4AI only in the LLM pass,
    which runs only for the provider [openai] with an API key: with
    [deepseek] or [grok], or without [OPENAI_API_KEY], a Primary fetch
    returns the same result and records the same cost whatever the
    instructions are. *)
Theorem instructions_reach_crawl4ai_only_through_openai (w : World)
    (self : SmartScrapingWorkflow) (env : Environ) (url : string)
    (instr instr' : option string) (c : Costs) :
  llm_provider self = "deepseek"%string \/ llm_provider self = "grok"%string \/
  str_truthy (OPENAI_API_KEY env) = false ->
  run w (_try_crawl4ai self env url instr) c
  = run w (_try_crawl4ai self env url instr') c.
Proof.
  intros Hconf.
  assert (Hllm : forall cfg i,
    let '(provider, api_key, model) := _get_llm_config self env in
    llm_extraction cfg url provider api_key model i = Ret JNull).
  { intros cfg i. unfold _get_llm_config.
    destruct (String.eqb_spec (llm_provider self) "deepseek") as [Hd|Hd].
    - unfold llm_extraction. destruct (DEEPSEEK_API_KEY env); reflexivity.
    - destruct (String.eqb_spec (llm_provider self) "grok") as [Hg|Hg].
      + unfold llm_extraction. destruct (GROK_API_KEY env); reflexivity.
      + destruct Hconf as [?|[?|Hkey]]; [congruence..|].
        unfold llm_extraction.
        destruct (OPENAI_API_KEY env) as [key|]; [|reflexivity].
        rewrite Hkey, andb_false_r. reflexivity. }
  rewrite !run_try_crawl4ai.
  destruct (_get_llm_config self env) as [[provider api_key] model].
  cbv zeta. destruct (crawler_enter w _) as [[]|msg]; [|reflexivity].
  rewrite !run_crawl4ai_body, !Hllm. reflexivity.
Qed.

Lemma instructions_reach_crawl4ai_only_through_openai_witness :
  run (simple_world plain_page (fun _ => Returns FcObject))
    (_try_crawl4ai example_self example_env "https://example.com"
       (Some "Extract the pricing table")) init_costs
  = run (simple_world plain_page (fun _ => Returns FcObject))
      (_try_crawl4ai example_self example_env "https://example.com" None) init_costs.
Proof.
  apply (instructions_reach_crawl4ai_only_through_openai
           (simple_world plain_page (fun _ => Returns FcObject))
           example_self example_env "https://example.com"
           (Some "Extract the pricing table") None init_costs).
  left. reflexivity.
Defined.

(** ** The ledger is written, never consulted *)

Lemma additive_from_any_ledger {A} (w : World) (p : prog A) (c c0 : Costs) :
  additive p ->
  (run w p c).1 = (run w p c0).1 /\
  costs_equiv (costs_plus (run w p c).2 c0) (costs_plus (run w p c0).2 c).
Proof.
  intros Hp.
  destruct (run_additive w p Hp c) as [Hr Hc].
  destruct (run_additive w p Hp c0) as [Hr0 Hc0].
  split; [congruence|].
  destruct (run w p c) as [a c']. destruct (run w p c0) as [a0 c0'].
  cbn [fst snd] in *. clear Hr Hr0. costs_arith.
Qed.

(** X4.  Nothing a fetch or a company does depends on what was spent
    before: from any two ledgers, [scrape_url] and [scrape_company_data]
    return the same result and add the same amounts.  No budget stops or
    redirects a fetch. *)
Theorem spending_never_changes_a_result (w : World) (self : SmartScrapingWorkflow)
    (env : Environ) (c c0 : Costs) :
  (forall url instr,
     (run w (scrape_url self env url instr) c).1
     = (run w (scrape_url self env url instr) c0).1 /\
     costs_equiv (costs_plus (run w (scrape_url self env url instr) c).2 c0)
                 (costs_plus (run w (scrape_url self env url instr) c0).2 c)) /\
  (forall company0,
     (run w (scrape_company_data self env company0) c).1
     = (run w (scrape_company_data self env company0) c0).1 /\
     costs_equiv (costs_plus (run w (scrape_company_data self env company0) c).2 c0)
                 (costs_plus (run w (scrape_company_data self env company0) c0).2 c)).
Proof.
  split.
  - intros url instr. apply additive_from_any_ledger, additive_scrape_url.
  - intros company0. apply additive_from_any_ledger, additive_scrape_company_data.
Qed.

(** ** One company: what the result holds *)

Ltac company_cases w company0 c :=
  rewrite run_scrape_company_data; cbv zeta;
  destruct (negb (String.eqb (clean_url (website company0)) "")) eqn:Hsite;
  [destruct (run w (scrape_url _ _ (clean_url (website company0)) _) c)
     as [main_result c1] eqn:Hmain|];
  (destruct (negb (String.eqb (linkedin_url company0) "")
             && startswith (linkedin_url company0) "http")%bool eqn:Hlinked;
   [match goal with
    | |- context [run w (scrape_url ?s ?e (linkedin_url company0) ?i) ?c0] =>
        destruct (run w (scrape_url s e (linkedin_url company0) i) c0)
          as [linkedin_result c2] eqn:Hlinkedin
    end|]);
  cbn [fst snd].

Ltac store_cases :=
  unfold store_linkedin, store_main_site;
  repeat match goal with
         | |- context [get_success ?r] =>
             is_var r; let H := fresh "Hok" in destruct (get_success r) eqn:H
         | |- context [get_data_extracted ?r] =>
             is_var r; let H := fresh "Hdata" in
             let v := fresh "v" in
             destruct (get_data_extracted r) as [v|] eqn:H;
             [let Hv := fresh "Hv" in destruct (json_truthy v) eqn:Hv|]
         end;
  cbn [company scraping_results scraping_cost].

(** X5.  Whatever the two fetches do, the result of a company is about that
    company and holds at most three entries: [main_site] and [linkedin] are
    fetches that succeeded, [extracted_data] is a truthy document and is
    there only beside the main-site fetch it was taken from.  A failed fetch
    is never stored, and [scraping_cost] is the cost of the stored
    main-site fetch plus the cost of the stored LinkedIn fetch. *)
Theorem company_result_holds_only_successful_fetches (w : World)
    (self : SmartScrapingWorkflow) (env : Environ) (company0 : Company) (c : Costs) :
  let result := (run w (scrape_company_data self env company0) c).1 in
  let stored := scraping_results result in
  company result = company0 /\
  (forall key entry,
     stored !! key = Some entry ->
     ((key = "main_site"%string \/ key = "linkedin"%string) /\
      exists r, entry = Fetched r /\ get_success r = true) \/
     (key = "extracted_data"%string /\
      exists v main_result,
        entry = Extracted v /\ json_truthy v = true /\
        stored !! "main_site"%string = Some (Fetched main_result) /\
        get_data_extracted main_result = Returns v)) /\
  scraping_cost result
  == entry_cost (stored !! "main_site"%string) + entry_cost (stored !! "linkedin"%string).
Proof.
  cbv zeta. company_cases w company0 c; store_cases.
  all: split; [reflexivity|]; split.
  all: try (intros key entry Hkey;
            repeat (apply lookup_insert_Some in Hkey as [[<- <-]|[? Hkey]]);
            try (rewrite lookup_empty in Hkey; discriminate);
            first [ left; split; [auto|eauto]; fail
                  | right; split; [reflexivity|];
                    eexists _, _; split; [reflexivity|]; split; [assumption|];
                    split; [simplify_map_eq; reflexivity|assumption] ]).
  all: simplify_map_eq; cbn [entry_cost]; ring.
Qed.

(** X6.  A LinkedIn URL that does not start with [http] is never fetched,
    whatever the backends would answer: the result has no [linkedin] entry,
    and the result and the ledger are those of the main site alone.  (A
    website without a scheme is fetched, with [https://] put before it; the
    LinkedIn column gets no such repair.) *)
Theorem linkedin_url_without_scheme_is_skipped (w : World)
    (self : SmartScrapingWorkflow) (env : Environ) (company0 : Company) (c : Costs) :
  startswith (linkedin_url company0) "http" = false ->
  let results0 := {| company := company0; scraping_results := ∅; scraping_cost := 0 |} in
  let site := clean_url (website company0) in
  scraping_results (run w (scrape_company_data self env company0) c).1 !! "linkedin"%string
  = None /\
  run w (scrape_company_data self env company0) c
  = if String.eqb site "" then (results0, c)
    else
      (store_main_site results0
         (run w (scrape_url self env site
                   (Some (extraction_prompt (company_name company0)))) c).1,
       (run w (scrape_url self env site
                 (Some (extraction_prompt (company_name company0)))) c).2).
Proof.
  intros Hscheme. cbv zeta.
  rewrite run_scrape_company_data. cbv zeta.
  rewrite Hscheme, andb_false_r.
  destruct (String.eqb (clean_url (website company0)) ""); cbn [negb].
  - split; [apply lookup_empty|reflexivity].
  - destruct (run w (scrape_url _ _ _ _) c) as [main_result c1]. cbn [fst snd].
    split; [|reflexivity].
    store_cases; simplify_map_eq; reflexivity.
Qed.

Lemma linkedin_url_without_scheme_is_skipped_witness :
  let w := simple_world plain_page (fun _ => Returns FcObject) in
  scraping_results (run w (scrape_company_data example_self example_env bare_linkedin)
                      init_costs).1 !! "linkedin"%string = None /\
  total_pages (run w (scrape_company_data example_self example_env bare_linkedin)
                 init_costs).2 = 1%Z.
Proof.
  cbv zeta.
  destruct (linkedin_url_without_scheme_is_skipped
              (simple_world plain_page (fun _ => Returns FcObject))
              example_self example_env bare_linkedin init_costs)
    as [Hnone Hrun]; [reflexivity|].
  split; [exact Hnone|].
  rewrite Hrun. reflexivity.
Defined.

(** ** What a company reports and what the ledger holds *)









(** ** The pipeline's totals *)


Lemma pool_delta_app {A} (w : World) (pool pool' : list (prog A)) :
  costs_equiv (pool_delta w (pool ++ pool'))
              (costs_plus (pool_delta w pool) (pool_delta w pool')).
Proof.
  induction pool as [|p pool IH]; cbn [app].
  - change (pool_delta w []) with init_costs. costs_arith.
  - rewrite !pool_delta_cons.
    set (d := pool_delta w (pool ++ pool')) in *.
    set (d1 := pool_delta w pool) in *. set (d2 := pool_delta w pool') in *.
    set (d0 := delta w p). clearbody d d1 d2 d0. costs_arith.
Qed.




(** The ledger after the loop: what it was, plus what the companies of all
    batches add alone. *)
Lemma batch_loop_ledger (w : World) self env sched (tasks : list Company)
    (batch_size : Z) :
  forall (starts : list Z) (acc : list CompanyResult) (st : Pipeline),
    costs_equiv
      (costs (batch_loop w self env sched tasks batch_size starts acc st).2)
      (costs_plus (costs st)
         (pool_delta w
            (map (scrape_company_data self env)
               (concat (map (fun i => py_slice tasks i (i + batch_size)) starts))))).
Proof.
  induction starts as [|i starts IH]; intros acc st.
  - cbn. symmetry. apply costs_plus_init.
  - cbn [batch_loop map concat]. unfold process_company_batch.
    destruct (gather_additive w (sched i)
                (map (scrape_company_data self env) (py_slice tasks i (i + batch_size)))
                (costs st)) as [_ Hc].
    { apply Forall_fmap, Forall_true. intros co. apply additive_scrape_company_data. }
    destruct (gather w (sched i) _ (costs st)) as [batch_results c].
    cbn [snd] in Hc.
    match goal with
    | |- costs_equiv (costs (batch_loop _ _ _ _ _ _ _ ?acc' ?st').2) _ =>
        pose proof (IH acc' st') as Hrest
    end.
    cbn [costs] in Hrest.
    rewrite Hrest, (map_app (scrape_company_data self env)).
    pose proof (pool_delta_app w
                  (map (scrape_company_data self env) (py_slice tasks i (i + batch_size)))
                  (map (scrape_company_data self env)
                     (concat (map (fun i => py_slice tasks i (i + batch_size)) starts))))
      as Happ.
    revert Hc Happ. generalize (costs st).
    generalize (pool_delta w
      (map (scrape_company_data self env) (py_slice tasks i (i + batch_size)) ++
       map (scrape_company_data self env)
         (concat (map (fun i => py_slice tasks i (i + batch_size)) starts)))).
    generalize (pool_delta w
      (map (scrape_company_data self env) (py_slice tasks i (i + batch_size)))).
    generalize (pool_delta w
      (map (scrape_company_data self env)
         (concat (map (fun i => py_slice tasks i (i + batch_size)) starts)))).
    clear. intros d2 d1 d c0 Hc Happ. costs_arith.
Qed.

(** For a batch size above 0 the loop takes the chunks of the task list,
    none of them empty, and together they are the list. *)
Lemma pipeline_slices (tasks : list Company) (batch_size : Z) :
  (0 < batch_size)%Z ->
  let batches :=
    map (fun i => py_slice tasks i (i + batch_size))
        (map (fun k => (0 + Z.of_nat k * batch_size)%Z)
             (seq 0 (range_len (Z.of_nat (length tasks)) batch_size))) in
  concat batches = tasks /\ Forall (fun batch => batch <> []) batches.
Proof.
  intros Hsize. cbv zeta.
  set (b := Z.to_nat batch_size).
  assert (Hb : (0 < b)%nat) by (unfold b; lia).
  assert (Hbz : batch_size = Z.of_nat b) by (unfold b; lia).
  pose proof (slices_are_chunks tasks b Hb (length tasks) 0) as H.
  rewrite Nat.sub_0_r, drop_0 in H. rewrite Hbz.
  change (Z.of_nat 0) with 0%Z in H. rewrite H by lia.
  split; [apply chunks_fuel_concat; [exact Hb|reflexivity]|].
  eapply Forall_impl; [apply chunks_fuel_bounds, Hb|].
  intros batch [Hpos _] ->. cbn in Hpos. lia.
Qed.

(** The pipeline for a batch size above 0: the results of the tasks alone,
    and the ledger plus what the tasks add alone. *)
Lemma run_research_pipeline_positive (w : World) self env sched companies limit
    (batch_size : Z) (st : Pipeline) :
  (0 < batch_size)%Z ->
  let tasks := truncate_companies limit companies in
  exists st',
    run_research_pipeline w self env sched companies limit batch_size st
    = Returns (map (company_result w self env) tasks, st') /\
    costs_equiv (costs st')
      (costs_plus (costs st) (pool_delta w (map (scrape_company_data self env) tasks))).
Proof.
  intros Hsize tasks. unfold run_research_pipeline. fold tasks.
  rewrite py_range_positive by assumption.
  destruct (pipeline_slices tasks batch_size Hsize) as [Hconcat Hne].
  set (starts := map _ (seq 0 _)) in *.
  destruct (batch_loop_spec w self env sched tasks batch_size starts [] st Hne)
    as [Hres _].
  pose proof (batch_loop_ledger w self env sched tasks batch_size starts [] st) as Hledger.
  rewrite Hconcat in Hres, Hledger. cbn [app] in Hres.
  destruct (batch_loop w self env sched tasks batch_size starts [] st) as [results st'].
  cbn [fst snd] in *. subst results.
  exists st'. split; [reflexivity|exact Hledger].
Qed.



(** ** Unchecked integers: the batch size and the limit *)

(** X9.  A batch size below 1 processes nothing, whatever the task list
    and the limit are: 0 raises [ValueError] from [range] (even for an
    empty list), a negative size returns no result and leaves the ledger
    and the CSV directory as they were, without an error. *)
Theorem batch_size_below_one_processes_nothing (w : World)
    (self : SmartScrapingWorkflow) (env : Environ) (sched : Z -> list nat)
    (companies : list Company) (limit : option Z) (batch_size : Z) (st : Pipeline) :
  (batch_size <= 0)%Z ->
  run_research_pipeline w self env sched companies limit batch_size st
  = if (batch_size =? 0)%Z then Raises "range() arg 3 must not be zero"
    else Returns ([], st).
Proof.
  intros Hsize. unfold run_research_pipeline, py_range.
  destruct (Z.eqb_spec batch_size 0) as [Hzero|Hneg]; [reflexivity|].
  destruct (Z.ltb_spec 0 batch_size) as [Hpos|_]; [lia|].
  destruct (Z.ltb_spec (Z.of_nat (length (truncate_companies limit companies))) 0)
    as [Hlen|_]; [lia|].
  reflexivity.
Qed.

Lemma batch_size_below_one_processes_nothing_witness :
  run_research_pipeline acme_world example_self example_env (fun _ => example_schedule)
    twelve_companies (Some 10%Z) (-5) fresh_pipeline
  = Returns ([], fresh_pipeline).
Proof.
  apply (batch_size_below_one_processes_nothing acme_world example_self example_env
           (fun _ => example_schedule) twelve_companies (Some 10%Z) (-5) fresh_pipeline).
  lia.
Defined.

Lemma truncate_negative_limit (companies : list Company) (n : Z) :
  (n < 0)%Z ->
  truncate_companies (Some n) companies
  = take (length companies - Z.to_nat (- n)) companies.
Proof.
  intros Hn. unfold truncate_companies.
  destruct (Z.eqb_spec n 0); [lia|]. cbn [negb].
  unfold py_slice, slice_bound.
  destruct (Z.ltb_spec 0 0); [lia|].
  destruct (Z.ltb_spec n 0); [|lia].
  rewrite Z.min_l by lia. cbn [Z.to_nat drop]. rewrite Z.sub_0_r.
  f_equal. lia.
Qed.

(** X10.  A negative limit is not refused: [companies[:limit]] drops the
    last [-limit] companies.  For a batch size above 0 the pipeline then
    returns the results of all companies but those, in order, and of none
    when the list has no more than [-limit] companies. *)
Theorem negative_limit_drops_the_last_companies (w : World)
    (self : SmartScrapingWorkflow) (env : Environ) (sched : Z -> list nat)
    (companies : list Company) (n : Z) (batch_size : Z) (st : Pipeline) :
  (n < 0)%Z ->
  (0 < batch_size)%Z ->
  exists st',
    run_research_pipeline w self env sched companies (Some n) batch_size st
    = Returns (map (company_result w self env)
                 (take (length companies - Z.to_nat (- n)) companies), st') /\
    (length companies <= Z.to_nat (- n) ->
     run_research_pipeline w self env sched companies (Some n) batch_size st
     = Returns ([], st))%nat.
Proof.
  intros Hn Hsize.
  destruct (run_research_pipeline_positive w self env sched companies (Some n)
              batch_size st Hsize) as (st' & Hrun & _).
  rewrite truncate_negative_limit in Hrun by assumption.
  exists st'. split; [exact Hrun|].
  intros Hshort. unfold run_research_pipeline.
  rewrite truncate_negative_limit by assumption.
  replace (length companies - Z.to_nat (- n))%nat with 0%nat by lia.
  rewrite py_range_positive by assumption. reflexivity.
Qed.

Lemma negative_limit_drops_the_last_companies_witness :
  exists st',
    run_research_pipeline acme_world example_self example_env (fun _ => example_schedule)
      twelve_companies (Some (-2)%Z) 5 fresh_pipeline
    = Returns (map (company_result acme_world example_self example_env)
                 (replicate 10 acme), st').
Proof.
  destruct (negative_limit_drops_the_last_companies acme_world example_self example_env
              (fun _ => example_schedule) twelve_companies (-2) 5 fresh_pipeline)
    as (st' & Hrun & _); [reflexivity|reflexivity|].
  exists st'. exact Hrun.
Defined.

(** ** The scraper [__init__] builds *)

(** The [proxy_used] of a Primary page is the URL of the proxy the fetch
    drew. *)
Lemma crawl4ai_page_proxy_used (w : World) self env url instr c c'
    provider model cost data proxy_used :
  run w (_try_crawl4ai self env url instr) c
  = (Some (Crawl4aiPage provider model cost data proxy_used), c') ->
  proxy_used = option_map proxy_url (selected_proxy w self).
Proof.
  rewrite run_try_crawl4ai.
  destruct (_get_llm_config self env) as [[provider0 api_key] model0]. cbv zeta.
  destruct (crawler_enter w _) as [[]|msg]; [|discriminate].
  rewrite run_crawl4ai_body.
  destruct (crawler_arun w _ url None) as [page|msg].
  2:{ destruct (crawler_exit w _) as [[]|?]; discriminate. }
  destruct (cr_success page).
  2:{ destruct (crawler_exit w _) as [[]|?]; discriminate. }
  destruct (page_cost provider0 env _) as [cost0|msg].
  2:{ destruct (crawler_exit w _) as [[]|?]; discriminate. }
  destruct (crawler_exit w _) as [[]|?]; [|discriminate].
  destruct (extracted_field _ page); [|discriminate].
  intros [= _ _ _ _ <- _]. reflexivity.
Qed.

Lemma load_proxy_pool_cases (e : InitEnviron) :
  _load_proxy_pool e [] = [] \/
  exists p,
    _load_proxy_pool e [] = [p] /\ proxy_url p <> ""%string /\
    ((getenv_default (PROXY_TYPE e) "single" = "single"%string /\
      PROXY_URL e = Some (proxy_url p) /\
      proxy_username p = PROXY_USERNAME e /\ proxy_password p = PROXY_PASSWORD e) \/
     (PROXY_TYPE e = Some "rotating"%string /\
      ROTATING_PROXY_URL e = Some (proxy_url p) /\
      proxy_username p = ROTATING_PROXY_USERNAME e /\
      proxy_password p = ROTATING_PROXY_PASSWORD e)).
Proof.
  unfold _load_proxy_pool.
  destruct (String.eqb_spec (getenv_default (PROXY_TYPE e) "single") "single")
    as [Hsingle|Hother].
  - destruct (PROXY_URL e) as [url|] eqn:Hurl; [|left; reflexivity].
    destruct (str_truthy (Some url)) eqn:Htruthy; [|left; reflexivity].
    right. eexists. split; [reflexivity|]. cbn.
    split; [|left; auto].
    intros ->. discriminate.
  - destruct (String.eqb_spec (getenv_default (PROXY_TYPE e) "single") "rotating")
      as [Hrot|_]; [|left; reflexivity].
    destruct (ROTATING_PROXY_URL e) as [url|] eqn:Hurl; [|left; reflexivity].
    destruct (str_truthy (Some url)) eqn:Htruthy; [|left; reflexivity].
    right. eexists. split; [reflexivity|]. cbn.
    split; [intros ->; discriminate|].
    right. destruct (PROXY_TYPE e); cbn in Hrot; [subst; auto|discriminate].
Qed.

(** X11.  A scraper built by [__init__] starts from the empty ledger and
    holds at most one proxy: none unless [CRAWL4AI_USE_PROXY] is [true] in
    any capitalisation, and then the static or the rotating one, whichever
    [PROXY_TYPE] names (exactly [single], the default, or [rotating]), when
    its URL is set and not empty.  So the draw of [random.choice] never
    matters, and every Primary page names that one proxy in [proxy_used],
    or none: with proxying enabled and no usable URL a fetch goes out
    directly, without an error. *)
Theorem init_holds_at_most_one_proxy
    (firecrawl_app : option string -> outcome unit) (e : InitEnviron)
    (self : SmartScrapingWorkflow) (ledger : Costs) :
  __init__ firecrawl_app e = Returns (self, ledger) ->
  ledger = init_costs /\
  llm_provider self = getenv_default (CRAWL4AI_LLM_PROVIDER e) "deepseek" /\
  (use_proxy self = true <->
   py_lower (getenv_default (CRAWL4AI_USE_PROXY e) "false") = "true"%string) /\
  (use_proxy self = false -> proxy_pool self = []) /\
  (proxy_pool self = [] \/
   exists p,
     proxy_pool self = [p] /\ proxy_url p <> ""%string /\
     ((getenv_default (PROXY_TYPE e) "single" = "single"%string /\
       PROXY_URL e = Some (proxy_url p) /\
       proxy_username p = PROXY_USERNAME e /\ proxy_password p = PROXY_PASSWORD e) \/
      (PROXY_TYPE e = Some "rotating"%string /\
       ROTATING_PROXY_URL e = Some (proxy_url p) /\
       proxy_username p = ROTATING_PROXY_USERNAME e /\
       proxy_password p = ROTATING_PROXY_PASSWORD e))) /\
  (forall w, selected_proxy w self = head (proxy_pool self)) /\
  (forall w env url instr c c' provider model cost data proxy_used,
     run w (_try_crawl4ai self env url instr) c
     = (Some (Crawl4aiPage provider model cost data proxy_used), c') ->
     proxy_used = option_map proxy_url (head (proxy_pool self))).
Proof.
  unfold __init__.
  destruct (firecrawl_app (FIRECRAWL_API_KEY e)) as [[]|msg]; [|discriminate].
  cbv zeta. intros [= <- <-].
  cbn [llm_provider use_proxy proxy_pool].
  set (enabled := String.eqb _ "true").
  assert (Hpool :
    (if enabled then _load_proxy_pool e [] else []) = [] \/
    exists p,
      (if enabled then _load_proxy_pool e [] else []) = [p] /\ enabled = true /\
      _load_proxy_pool e [] = [p]).
  { destruct enabled; [|left; reflexivity].
    destruct (load_proxy_pool_cases e) as [->|(p & Hp & _)]; [left; reflexivity|].
    right. exists p. rewrite Hp. auto. }
  assert (Hselected : forall w,
    selected_proxy w
      {| llm_provider := getenv_default (CRAWL4AI_LLM_PROVIDER e) "deepseek";
         use_proxy := enabled;
         proxy_pool := if enabled then _load_proxy_pool e [] else [] |}
    = head (if enabled then _load_proxy_pool e [] else [])).
  { intros w. unfold selected_proxy. cbn [use_proxy proxy_pool].
    destruct Hpool as [->|(p & -> & -> & _)]; [destruct enabled; reflexivity|].
    cbn [length]. rewrite Nat.mod_1_r. reflexivity. }
  split; [reflexivity|]. split; [reflexivity|].
  split; [unfold enabled; apply String.eqb_eq|].
  split; [intros ->; reflexivity|].
  split.
  { destruct Hpool as [->|(p & -> & _ & Hp)]; [left; reflexivity|].
    right. exists p. split; [reflexivity|].
    destruct (load_proxy_pool_cases e) as [Hnil|(p' & Hp' & Hurl & Hfrom)];
      [congruence|].
    assert (p' = p) as -> by congruence. auto. }
  split; [exact Hselected|].
  intros w env url instr c c' provider model cost data proxy_used Hrun.
  rewrite <- (Hselected w). eapply crawl4ai_page_proxy_used, Hrun.
Qed.

Lemma init_holds_at_most_one_proxy_witness :
  exists self,
    __init__ (fun _ => Returns tt) proxy_environ = Returns (self, init_costs) /\
    use_proxy self = true /\
    forall w, option_map proxy_url (selected_proxy w self)
              = Some "http://proxy.example:8080"%string.
Proof.
  eexists. split; [reflexivity|]. split; [reflexivity|].
  intros w.
  destruct (init_holds_at_most_one_proxy (fun _ => Returns tt) proxy_environ _ _ eq_refl)
    as (_ & _ & _ & _ & _ & Hselected & _).
  rewrite Hselected. reflexivity.
Defined.

(** ** Bulk scraping *)

Lemma run_fetched (w : World) self env instr url c :
  (run w (scrape_url self env url instr) c).1 = fetched w self env instr url /\
  costs_equiv (run w (scrape_url self env url instr) c).2
              (costs_plus c (delta w (scrape_url self env url instr))).
Proof. apply run_additive, additive_scrape_url. Qed.

Lemma costs_plus_chain (c c1 c2 d0 d : Costs) :
  costs_equiv c1 (costs_plus c d0) ->
  costs_equiv c2 (costs_plus c1 d) ->
  costs_equiv c2 (costs_plus c (costs_plus d0 d)).
Proof. intros H1 H2. costs_arith. Qed.

(** The loop of [bulk_scrape]: each URL goes to one of the two lists, by
    what [scrape_url] returns for it, and the ledger gains what the fetches
    add. *)
Lemma run_bulk_loop (w : World) self env instr :
  forall (urls : list string) (i : nat) (rs : list FetchResult) (fs : list string)
         (c : Costs),
    (run w (bulk_loop self env urls instr i rs fs) c).1.1
    = (rs ++ List.filter get_success (map (fetched w self env instr) urls))%list /\
    (run w (bulk_loop self env urls instr i rs fs) c).1.2
    = (fs ++ List.filter (fun url => negb (get_success (fetched w self env instr url)))
               urls)%list /\
    costs_equiv (run w (bulk_loop self env urls instr i rs fs) c).2
      (costs_plus c
         (pool_delta w (map (fun url => scrape_url self env url instr) urls))).
Proof.
  induction urls as [|url urls IH]; intros i rs fs c.
  - cbn. rewrite !app_nil_r. split; [reflexivity|]. split; [reflexivity|].
    symmetry. apply costs_plus_init.
  - cbn [bulk_loop bind run]. rewrite run_bind.
    destruct (run_fetched w self env instr url c) as [Hr Hc].
    destruct (run w (scrape_url self env url instr) c) as [r c1].
    cbn [fst snd] in Hr, Hc. subst r.
    cbn [map List.filter]. rewrite pool_delta_cons.
    set (d0 := delta w (scrape_url self env url instr)) in *.
    assert (Hstep : forall rs' fs',
      run w
        (Await
           ((if ((Z.of_nat i + 1) mod 10 =? 0)%Z then _print_cost_summary else Ret tt);;
            bulk_loop self env urls instr (S i) rs' fs')) c1
      = run w (bulk_loop self env urls instr (S i) rs' fs') c1).
    { intros rs' fs'. cbn [run].
      destruct ((Z.of_nat i + 1) mod 10 =? 0)%Z; reflexivity. }
    destruct (get_success (fetched w self env instr url)); cbn [negb];
      rewrite Hstep;
      match goal with
      | |- context [run w (bulk_loop self env urls instr (S i) ?rs' ?fs') c1] =>
          destruct (IH (S i) rs' fs' c1) as (IHr & IHf & IHc)
      end.
    all: rewrite IHr, IHf, <- ?app_assoc.
    all: split; [reflexivity|]; split; [reflexivity|].
    all: eapply costs_plus_chain; eassumption.
Qed.

Lemma run_bulk_scrape (w : World) self env urls instr c :
  run w (bulk_scrape self env urls instr) c
  = let out := run w (bulk_loop self env urls instr 0 [] []) c in
    ({| total_urls := length urls;
        successful := length out.1.1;
        failed := length out.1.2;
        failed_urls := out.1.2;
        summary_costs := out.2;
        results := out.1.1;
        recommendations := _generate_recommendations out.2 |}, out.2).
Proof.
  unfold bulk_scrape. rewrite run_bind.
  destruct (run w (bulk_loop self env urls instr 0 [] []) c) as [collected c1].
  reflexivity.
Qed.

Lemma filter_partition_length {A} (f : A -> bool) (l : list A) :
  (length (List.filter f l) + length (List.filter (fun x => negb (f x)) l)
   = length l)%nat.
Proof.
  induction l as [|x l IH]; [reflexivity|].
  cbn [List.filter]. destruct (f x); cbn [negb length]; lia.
Qed.

Lemma filter_map_length {A B} (f : B -> bool) (g : A -> B) (l : list A) :
  length (List.filter f (map g l)) = length (List.filter (fun x => f (g x)) l).
Proof.
  induction l as [|x l IH]; [reflexivity|].
  cbn [map List.filter]. destruct (f (g x)); cbn [length]; congruence.
Qed.

(** X12.  [bulk_scrape] sorts every URL into exactly one of two lists, in
    the order given: [results] holds what [scrape_url] returned for the
    URLs that succeeded (and nothing that failed), [failed_urls] the URLs
    that did not; [successful + failed = total_urls].  The [costs] of the
    summary are the ledger at the end, and the recommendations are computed
    from it. *)
Theorem bulk_scrape_sorts_every_url (w : World) (self : SmartScrapingWorkflow)
    (env : Environ) (urls : list string) (instr : option string) (c : Costs) :
  let summary := (run w (bulk_scrape self env urls instr) c).1 in
  total_urls summary = length urls /\
  results summary = List.filter get_success (map (fetched w self env instr) urls) /\
  failed_urls summary
  = List.filter (fun url => negb (get_success (fetched w self env instr url))) urls /\
  successful summary = length (results summary) /\
  failed summary = length (failed_urls summary) /\
  (successful summary + failed summary = total_urls summary)%nat /\
  Forall (fun r => get_success r = true) (results summary) /\
  summary_costs summary = (run w (bulk_scrape self env urls instr) c).2 /\
  recommendations summary = _generate_recommendations (summary_costs summary).
Proof.
  cbv zeta. rewrite run_bulk_scrape. cbv zeta.
  destruct (run_bulk_loop w self env instr urls 0 [] [] c) as (Hr & Hf & _).
  cbn [app] in Hr, Hf.
  cbn [fst snd total_urls results failed_urls successful failed summary_costs
       recommendations].
  rewrite Hr, Hf.
  split; [reflexivity|]. split; [reflexivity|]. split; [reflexivity|].
  split; [reflexivity|]. split; [reflexivity|].
  split.
  { rewrite filter_map_length. apply filter_partition_length. }
  split; [|split; reflexivity].
  apply Forall_forall. intros r Hin.
  apply list_elem_of_In, filter_In in Hin. apply Hin.
Qed.




(** ** Recommendations *)






(** A fetch that fails, in a world where no Primary attempt fails after
    recording, leaves the ledger as it was. *)
Lemma failed_fetch_leaves_the_ledger (w : World) self env instr url c :
  fails_cleanly w self env ->
  get_success (fetched w self env instr url) = false ->
  run w (scrape_url self env url instr) c
  = (BothFailed "Both Crawl4AI and Firecrawl failed" url, c).
Proof.
  intros Hclean Hfail.
  destruct (run_fetched w self env instr url c) as [Hr _].
  rewrite <- Hr in Hfail.
  destruct (scrape_url_failure w self env url instr c _ _ (surjective_pairing _) Hfail)
    as (_ & Hfirst & Hsecond).
  pose proof (Hclean url instr c Hfirst) as Hledger.
  rewrite Hledger in Hsecond.
  pose proof (secondary_failure_ledger w self url instr c _ _
                (surjective_pairing _) Hsecond) as Hledger2.
  destruct (run w (_try_crawl4ai self env url instr) c) as [r1 c1] eqn:H1.
  destruct (run w (_try_firecrawl self url instr) c) as [r2 c2] eqn:H2.
  cbn [fst snd] in Hfirst, Hsecond, Hledger, Hledger2. subst c1 c2.
  exact (total_failure_after_clean_failures w self env url instr c r1 r2
           H1 Hfirst H2 Hsecond).
Qed.

Lemma run_bulk_loop_all_failed (w : World) self env instr :
  fails_cleanly w self env ->
  forall (urls : list string),
    Forall (fun url => get_success (fetched w self env instr url) = false) urls ->
    forall (i : nat) (rs : list FetchResult) (fs : list string) (c : Costs),
      run w (bulk_loop self env urls instr i rs fs) c = ((rs, (fs ++ urls)%list), c).
Proof.
  intros Hclean urls Hall.
  induction Hall as [|url urls Hfail Hall IH]; intros i rs fs c.
  - cbn. rewrite app_nil_r. reflexivity.
  - cbn [bulk_loop bind run]. rewrite run_bind.
    rewrite (failed_fetch_leaves_the_ledger w self env instr url c Hclean Hfail).
    cbn [get_success run bind].
    destruct ((Z.of_nat i + 1) mod 10 =? 0)%Z; cbn [bind run _print_cost_summary];
      rewrite IH, <- app_assoc; reflexivity.
Qed.

(** X15.  When every URL of a bulk scrape fails (and no Primary attempt
    fails after recording its cost), a scraper that starts from the empty
    ledger returns no result, lists every URL as failed, leaves the ledger
    empty, and still recommends: "Excellent cost efficiency! Crawl4AI is
    working well."  The same holds for an empty list of URLs. *)
Theorem bulk_scrape_praises_a_run_without_success (w : World)
    (self : SmartScrapingWorkflow) (env : Environ) (urls : list string)
    (instr : option string) :
  fails_cleanly w self env ->
  Forall (fun url => get_success (fetched w self env instr url) = false) urls ->
  let summary := (run w (bulk_scrape self env urls instr) init_costs).1 in
  results summary = [] /\
  successful summary = 0%nat /\
  failed summary = length urls /\
  failed_urls summary = urls /\
  summary_costs summary = init_costs /\
  (run w (bulk_scrape self env urls instr) init_costs).2 = init_costs /\
  crawl4ai_percentage (recommendations summary) == 0 /\
  suggestion (recommendations summary)
  = "Excellent cost efficiency! Crawl4AI is working well."%string.
Proof.
  intros Hclean Hall. cbv zeta.
  rewrite run_bulk_scrape. cbv zeta.
  rewrite (run_bulk_loop_all_failed w self env instr Hclean urls Hall).
  cbn [fst snd app results successful failed failed_urls summary_costs recommendations
       length].
  repeat split.
Qed.

Lemma bulk_scrape_praises_a_run_without_success_witness :
  let summary := (run offline_world (bulk_scrape example_self example_env example_urls None)
                    init_costs).1 in
  failed summary = 5%nat /\
  suggestion (recommendations summary)
  = "Excellent cost efficiency! Crawl4AI is working well."%string.
Proof.
  cbv zeta.
  destruct (bulk_scrape_praises_a_run_without_success offline_world example_self
              example_env example_urls None)
    as (_ & _ & Hfailed & _ & _ & _ & _ & Hsuggest).
  - intros url instr c Hfail. reflexivity.
  - repeat constructor.
  - split; [exact Hfailed|exact Hsuggest].
Defined.

(** ** Cleaning a URL, naming a file *)

Lemma append_cons (a : ascii) (s t : string) :
  String.append (String a s) t = String a (String.append s t).
Proof. reflexivity. Qed.

Lemma append_empty (t : string) : String.append "" t = t.
Proof. reflexivity. Qed.

Lemma rev_app_rev_app (s acc t : string) :
  String.rev_app (String.rev_app s acc) t = String.rev_app acc (String.append s t).
Proof.
  revert acc t. induction s as [|a s IH]; intros acc t; [reflexivity|].
  cbn [String.rev_app]. rewrite IH, append_cons. reflexivity.
Qed.

Lemma rev_app_append (s t acc : string) :
  String.rev_app (String.append s t) acc = String.rev_app t (String.rev_app s acc).
Proof.
  revert acc. induction s as [|a s IH]; intros acc; [reflexivity|].
  rewrite append_cons. cbn [String.rev_app]. apply IH.
Qed.

Lemma append_assoc (s t u : string) :
  String.append (String.append s t) u = String.append s (String.append t u).
Proof.
  induction s as [|a s IH]; [reflexivity|].
  rewrite !append_cons, IH. reflexivity.
Qed.

(** Stripping the front of a reversed string: the part before the last
    kept character is untouched. *)
Lemma lstrip_rev_app (f : ascii -> bool) (s acc : string) :
  lstrip_where f (String.rev_app s acc)
  = if has_kept f s then String.append (lstrip_where f (String.rev_app s "")) acc
    else lstrip_where f acc.
Proof.
  revert acc. induction s as [|a s IH]; intros acc; [reflexivity|].
  cbn [String.rev_app has_kept].
  rewrite (IH (String a acc)), (IH (String a "")).
  destruct (has_kept f s).
  - rewrite orb_true_r, append_assoc. reflexivity.
  - rewrite orb_false_r. cbn [lstrip_where]. destruct (f a); reflexivity.
Qed.

(** [rstrip] by recursion from the front. *)
Lemma rstrip_where_cons (f : ascii -> bool) (a : ascii) (s : string) :
  rstrip_where f (String a s)
  = if has_kept f s then String a (rstrip_where f s)
    else if f a then ""%string else String a "".
Proof.
  unfold rstrip_where, String.rev. cbn [String.rev_app].
  rewrite lstrip_rev_app.
  destruct (has_kept f s).
  - rewrite rev_app_append. reflexivity.
  - cbn [lstrip_where]. destruct (f a); reflexivity.
Qed.

(** What [rstrip] returns does not end with a stripped character. *)
Lemma rstrip_where_last (f : ascii -> bool) (s t : string) (a : ascii) :
  rstrip_where f s = String.append t (String a "") -> f a = false.
Proof.
  revert t. induction s as [|b s IH]; intros t.
  - destruct t; discriminate.
  - rewrite rstrip_where_cons.
    destruct (has_kept f s) eqn:Hkept.
    + destruct t as [|b' t]; rewrite ?append_cons, ?append_empty.
      * intros [= _ Hempty]. rewrite <- has_kept_rstrip, Hempty in Hkept. discriminate.
      * intros [= _ Hrest]. eapply IH, Hrest.
    + destruct (f b) eqn:Hb.
      * destruct t; discriminate.
      * destruct t as [|b' t]; rewrite ?append_cons, ?append_empty.
        -- intros [= <-]. exact Hb.
        -- intros [= _ Hrest]. destruct t; discriminate.
Qed.

Lemma startswith_cons (a : ascii) (s p : string) :
  startswith (String a s) (String a p) = startswith s p.
Proof.
  unfold startswith. cbn [String.prefix].
  destruct (ascii_dec a a); [reflexivity|congruence].
Qed.

Lemma startswith_empty (s : string) : startswith s "" = true.
Proof. destruct s; reflexivity. Qed.

Lemma startswith_append (s p q : string) :
  startswith s (String.append p q) = true -> startswith s p = true.
Proof.
  revert s. induction p as [|a p IH]; intros s H; [apply startswith_empty|].
  rewrite append_cons in H.
  apply startswith_head in H as Hh. destruct Hh as [s' ->].
  rewrite startswith_cons in H |- *. apply IH, H.
Qed.

(** [rstrip('/')] keeps a front of [http]. *)
Lemma rstrip_keeps_http (s : string) :
  startswith s "http" = true ->
  startswith (rstrip_where (Ascii.eqb "/"%char) s) "http" = true.
Proof.
  intros Hs.
  apply startswith_head in Hs as Hh. destruct Hh as [s1 ->].
  rewrite startswith_cons in Hs.
  apply startswith_head in Hs as Hh. destruct Hh as [s2 ->].
  rewrite startswith_cons in Hs.
  apply startswith_head in Hs as Hh. destruct Hh as [s3 ->].
  rewrite startswith_cons in Hs.
  apply startswith_head in Hs as Hh. destruct Hh as [s4 ->].
  rewrite !rstrip_where_cons. cbn [has_kept].
  change (Ascii.eqb "/" "t") with false. change (Ascii.eqb "/" "p") with false.
  cbn [negb orb].
  destruct (has_kept (Ascii.eqb "/"%char) s4);
    rewrite !startswith_cons; apply startswith_empty.
Qed.

(** X16.  What [clean_url] makes of a website column that is not empty:
    a URL that is not empty, starts with [http] and does not end with a
    slash; so the main site is always fetched.  A column of blanks only is
    not treated as empty: it becomes [https:], and that is fetched. *)
Theorem clean_url_of_a_nonempty_column (url : string) :
  url <> ""%string ->
  clean_url url <> ""%string /\
  startswith (clean_url url) "http" = true /\
  (forall s, clean_url url <> String.append s "/") /\
  (py_strip url = ""%string -> clean_url url = "https:"%string).
Proof.
  intros Hurl. unfold clean_url.
  apply String.eqb_neq in Hurl. rewrite Hurl.
  set (u := if negb _ then _ else _).
  assert (Hu : startswith u "http" = true).
  { subst u.
    destruct (startswith (py_strip url) "http://") eqn:H1; cbn [orb negb].
    - apply (startswith_append _ "http" "://"), H1.
    - destruct (startswith (py_strip url) "https://") eqn:H2; cbn [orb negb].
      + apply (startswith_append _ "http" "s://"), H2.
      + rewrite !append_cons, !startswith_cons. apply startswith_empty. }
  pose proof (rstrip_keeps_http u Hu) as Hclean.
  split; [intros Hempty; rewrite Hempty in Hclean; discriminate|].
  split; [exact Hclean|].
  split.
  - intros s Hend. apply rstrip_where_last in Hend. discriminate.
  - intros Hblank. subst u. rewrite Hblank. reflexivity.
Qed.

Lemma clean_url_of_a_nonempty_column_witness :
  clean_url "   " = "https:"%string /\
  startswith (clean_url " acme.example/ ") "http" = true.
Proof.
  split.
  - apply (clean_url_of_a_nonempty_column "   "); [discriminate|reflexivity].
  - apply (clean_url_of_a_nonempty_column " acme.example/ "). discriminate.
Defined.

Lemma py_replace_char_length (old new : ascii) (s : string) :
  String.length (py_replace_char old new s) = String.length s.
Proof. induction s as [|a s IH]; cbn; congruence. Qed.

Lemma contains_replaced (old new a : ascii) (s : string) :
  contains_char a (py_replace_char old new s)
  = (negb (Ascii.eqb a old) && contains_char a s
     || Ascii.eqb a new && contains_char old s)%bool.
Proof.
  induction s as [|b s IH]; cbn [py_replace_char contains_char].
  - rewrite !andb_false_r. reflexivity.
  - rewrite IH.
    destruct (Ascii.eqb_spec b old), (Ascii.eqb_spec a old), (Ascii.eqb_spec a new);
      subst; rewrite ?Ascii.eqb_refl;
      repeat match goal with
             | |- context [Ascii.eqb ?x ?y] =>
                 destruct (Ascii.eqb_spec x y); try congruence
             end;
      cbn [negb andb orb];
      repeat match goal with
             | |- context [contains_char ?x ?y] => destruct (contains_char x y)
             end;
      reflexivity.
Qed.

Lemma py_replace_char_absent (old new : ascii) (s : string) :
  contains_char old s = false -> py_replace_char old new s = s.
Proof.
  induction s as [|b s IH]; cbn [py_replace_char contains_char]; [reflexivity|].
  intros H. apply orb_false_iff in H as [Hb Hs].
  rewrite Hb, IH by assumption. reflexivity.
Qed.

Lemma py_replace_char_present (old new : ascii) (s : string) :
  old <> new -> contains_char old s = true -> py_replace_char old new s <> s.
Proof.
  intros Hne. induction s as [|b s IH]; cbn [py_replace_char contains_char];
    [discriminate|].
  destruct (Ascii.eqb_spec b old) as [->|Hb]; cbn [orb].
  - intros _ [= Heq _]. congruence.
  - intros Hs [= Heq]. apply IH; assumption.
Qed.

(** X17.  The file name of a company: [safe_name] has the length of the
    company name and holds neither a blank nor a slash, so the two files
    lie directly in their directories; a name with neither is kept as it
    is.  The renaming is idempotent and not injective: a company whose name
    has a blank or a slash and the company named by its [safe_name] are two
    companies with the same two files, and the later one overwrites the
    earlier. *)
Theorem safe_name_collides_on_blanks_and_slashes (name : string) :
  String.length (safe_name name) = String.length name /\
  contains_char " " (safe_name name) = false /\
  contains_char "/" (safe_name name) = false /\
  safe_name (safe_name name) = safe_name name /\
  (contains_char " " name = false -> contains_char "/" name = false ->
   safe_name name = name) /\
  (contains_char " " name || contains_char "/" name = true ->
   safe_name name <> name /\
   forall company0 company1,
     company_name company0 = name ->
     company_name company1 = safe_name name ->
     markdown_path company0 = markdown_path company1 /\
     json_path company0 = json_path company1).
Proof.
  unfold safe_name.
  assert (Hblank : contains_char " " (py_replace_char "/" "_" (py_replace_char " " "_" name))
                   = false).
  { rewrite !contains_replaced. reflexivity. }
  assert (Hslash : contains_char "/" (py_replace_char "/" "_" (py_replace_char " " "_" name))
                   = false).
  { rewrite !contains_replaced. reflexivity. }
  assert (Hidem :
    py_replace_char "/" "_"
      (py_replace_char " " "_" (py_replace_char "/" "_" (py_replace_char " " "_" name)))
    = py_replace_char "/" "_" (py_replace_char " " "_" name)).
  { rewrite (py_replace_char_absent " " "_" _ Hblank).
    apply py_replace_char_absent, Hslash. }
  split; [rewrite !py_replace_char_length; reflexivity|].
  split; [exact Hblank|]. split; [exact Hslash|]. split; [exact Hidem|].
  split.
  { intros Hb Hs. rewrite (py_replace_char_absent " " "_" _ Hb).
    apply py_replace_char_absent, Hs. }
  intros Hsome.
  assert (Hdiff : py_replace_char "/" "_" (py_replace_char " " "_" name) <> name).
  { intros Heq. rewrite <- Heq, Hblank, Hslash in Hsome. discriminate. }
  split; [exact Hdiff|].
  intros company0 company1 H0 H1. unfold markdown_path, json_path, safe_name.
  rewrite H0, H1. unfold safe_name. rewrite Hidem. split; reflexivity.
Qed.

Lemma safe_name_collides_on_blanks_and_slashes_witness :
  safe_name "Smith & Sons / West" = "Smith_&_Sons___West"%string /\
  markdown_path (example_company "Smith & Sons / West" "" "")
  = markdown_path (example_company "Smith_&_Sons___West" "" "").
Proof.
  split; [reflexivity|].
  apply (safe_name_collides_on_blanks_and_slashes "Smith & Sons / West");
    reflexivity.
Defined.

(** ** The summary statistics of [run_parallel_research] *)




